(** * dngateway: the hostname codec, the request classifier and the
      middleware state machine of [gateway.js], embedded in Rocq.

    JavaScript strings are sequences of UTF-16 code units; they are modelled
    as lists of [N].  Regular expressions of the source carry no [u] flag, so
    they see a string one code unit at a time, as the lists here do. *)

From Stdlib Require Import List NArith ZArith Bool Lia String Ascii Decimal.
Import ListNotations.

Set Implicit Arguments.

(* ================================================================== *)
(** * JavaScript strings *)
(* ================================================================== *)

Module JsString.

Definition jsstring := list N.

(** A string literal of the source, as code units. *)
Definition js (s : string) : jsstring :=
  List.map N_of_ascii (list_ascii_of_string s).

Fixpoint str_eqb (a b : jsstring) : bool :=
  match a, b with
  | [], [] => true
  | x :: a', y :: b' => N.eqb x y && str_eqb a' b'
  | _, _ => false
  end.

Definition length (s : jsstring) : Z := Z.of_nat (List.length s).

(** [s.startsWith(p)] *)
Fixpoint startsWith (s p : jsstring) : bool :=
  match p, s with
  | [], _ => true
  | y :: p', x :: s' => N.eqb x y && startsWith s' p'
  | _ :: _, [] => false
  end.

(** [s.endsWith(p)]: the last [p.length] code units of [s] are [p]. *)
Definition endsWith (s p : jsstring) : bool :=
  if (List.length p <=? List.length s)%nat
  then str_eqb (skipn (List.length s - List.length p) s) p
  else false.

(** [s.substr(start)] for a start that is not negative: the gateway only
    calls it that way. *)
Definition substr_from (s : jsstring) (start : Z) : jsstring :=
  skipn (Z.to_nat start) s.

(** [s.substr(start, len)] for a start that is not negative; a length that
    is zero or negative gives the empty string. *)
Definition substr (s : jsstring) (start len : Z) : jsstring :=
  firstn (Z.to_nat len) (skipn (Z.to_nat start) s).

(** [s.lastIndexOf(p)]: the string is walked from the left, [i] counts the
    units already passed and [found] is the last index at which [p] was
    seen; -1 when there is none. *)
Fixpoint lastIndexOf_from (s p : jsstring) (i : Z) (found : Z) : Z :=
  match s with
  | [] => if startsWith [] p then i else found
  | _ :: s' =>
      lastIndexOf_from s' p (i + 1) (if startsWith s p then i else found)
  end.

Definition lastIndexOf (s p : jsstring) : Z := lastIndexOf_from s p 0 (-1).

(** [n.toString()] for a number that is a natural: its decimal digits. *)
Fixpoint uint_digits (u : Decimal.uint) : jsstring :=
  match u with
  | Nil => []
  | D0 u' => 48%N :: uint_digits u'
  | D1 u' => 49%N :: uint_digits u'
  | D2 u' => 50%N :: uint_digits u'
  | D3 u' => 51%N :: uint_digits u'
  | D4 u' => 52%N :: uint_digits u'
  | D5 u' => 53%N :: uint_digits u'
  | D6 u' => 54%N :: uint_digits u'
  | D7 u' => 55%N :: uint_digits u'
  | D8 u' => 56%N :: uint_digits u'
  | D9 u' => 57%N :: uint_digits u'
  end.

Definition toString (n : N) : jsstring := uint_digits (N.to_uint n).

(** [s.padStart(len, fill)] with a fill of one code unit. *)
Definition padStart (s : jsstring) (len : nat) (fill : N) : jsstring :=
  repeat fill (len - List.length s) ++ s.

(** [0-9] *)
Definition is_digit (c : N) : bool := (48 <=? c)%N && (c <=? 57)%N.

(** [parseInt(s)] on a string that starts with a decimal digit (no sign, no
    white space, no [0x]): the value of the longest run of digits; [None]
    is NaN. *)
Fixpoint parseInt_acc (s : jsstring) (acc : N) : N :=
  match s with
  | c :: s' => if is_digit c then parseInt_acc s' (10 * acc + (c - 48))%N
               else acc
  | [] => acc
  end.

Definition parseInt (s : jsstring) : option N :=
  match s with
  | c :: _ => if is_digit c then Some (parseInt_acc s 0%N) else None
  | [] => None
  end.

(** [String.fromCharCode(n)]: one code unit, [n] taken modulo 2^16, NaN
    taken as 0. *)
Definition fromCharCode (n : option N) : jsstring :=
  match n with
  | Some k => [(k mod 65536)%N]
  | None => [0%N]
  end.

(** [a.join(sep)] *)
Fixpoint join (sep : jsstring) (l : list jsstring) : jsstring :=
  match l with
  | [] => []
  | [x] => x
  | x :: l' => x ++ sep ++ join sep l'
  end.

End JsString.
Import JsString.

(* ================================================================== *)
(** * Hostname codec *)
(* ================================================================== *)

(** [\w] of a regular expression without flags: [A-Za-z0-9_]. *)
Definition is_word (c : N) : bool :=
  ((65 <=? c) && (c <=? 90) || (97 <=? c) && (c <=? 122)
   || is_digit c || (c =? 95))%N.

(** The complement of the class [[^\w.-]]: the code units [encode_hostname]
    keeps. *)
Definition is_safe (c : N) : bool :=
  (is_word c || (c =? 46) || (c =? 45))%N.

(** The replacer of [encode_hostname], applied to the one code unit the
    class matched. *)
Definition encode_replacer (c : N) : jsstring :=
  js ".e" ++ padStart (toString c) 3 48%N ++ js ".".

Definition encode_unit (c : N) : jsstring :=
  if is_safe c then [c] else encode_replacer c.

(** [target_path.replace(/[^\w.-]/g, replacer)] *)
Definition encode_hostname (target_path : jsstring) : jsstring :=
  flat_map encode_unit target_path.

(** The six code units at the head of a string match [[.]e[0-9]{3}[.]]. *)
Definition is_escape (c0 c1 d1 d2 d3 c5 : N) : bool :=
  ((c0 =? 46) && (c1 =? 101) && is_digit d1 && is_digit d2 && is_digit d3
   && (c5 =? 46))%N.

(** The replacer of [decode_hostname], applied to the six matched units:
    [String.fromCharCode([parseInt(parseInt(str.substr(2, 3)))])]. *)
Definition decode_replacer (str : jsstring) : jsstring :=
  fromCharCode (parseInt (substr str 2 3)).

(** [hostname.replace(/[.]e[0-9]{3}[.]/g, replacer)]: matches are looked for
    from the left and do not overlap. *)
Fixpoint decode_hostname (hostname : jsstring) : jsstring :=
  match hostname with
  | [] => []
  | c0 :: t0 =>
      match t0 with
      | c1 :: d1 :: d2 :: d3 :: c5 :: rest =>
          if is_escape c0 c1 d1 d2 d3 c5
          then decode_replacer [c0; c1; d1; d2; d3; c5] ++ decode_hostname rest
          else c0 :: decode_hostname t0
      | _ => c0 :: decode_hostname t0
      end
  end.


(* ================================================================== *)
(** * Values, exceptions and objects *)
(* ================================================================== *)

(** The JavaScript values that cross the gateway's interfaces: what a filter
    returns, what [next] is called with, what an error carries as [code]. *)
Inductive jsval :=
| JUndefined
| JNull
| JBool (b : bool)
| JNum (n : Z)
| JStr (s : jsstring)
| JObject (id : N).

(** [v === false] *)
Definition strict_eq_false (v : jsval) : bool :=
  match v with
  | JBool false => true
  | _ => false
  end.

Inductive exn :=
| TypeError
| ReferenceError
| URIError
| Raised (v : jsval).

Inductive result (A : Type) :=
| Ok (a : A)
| Throw (e : exn).
Arguments Ok {A} a.
Arguments Throw {A} e.

Definition rbind {A B} (m : result A) (k : A -> result B) : result B :=
  match m with
  | Ok a => k a
  | Throw e => Throw e
  end.

Declare Scope result_scope.
Delimit Scope result_scope with result.
Notation "x <- m ;; k" := (rbind m (fun x => k))
  (at level 61, m at next level, right associativity) : result_scope.

(** A header value as Node hands it out: a string, an array of strings
    ([set-cookie]), or [null] once the gateway has cleared it. *)
Inductive header_value :=
| HNull
| HStr (s : jsstring)
| HArr (l : list jsstring).

(** A header object: its own keys in insertion order, each once. *)
Definition Headers := list (jsstring * header_value).

(** [o[key]]; [None] is [undefined]. *)
Fixpoint obj_get (o : Headers) (key : jsstring) : option header_value :=
  match o with
  | [] => None
  | (k, v) :: o' => if str_eqb k key then Some v else obj_get o' key
  end.

(** [o[key] = v]: an existing key keeps its place, a new one goes last. *)
Fixpoint obj_set (o : Headers) (key : jsstring) (v : header_value) : Headers :=
  match o with
  | [] => [(key, v)]
  | (k, w) :: o' =>
      if str_eqb k key then (k, v) :: o' else (k, w) :: obj_set o' key v
  end.

(** [{...a, ...b}] *)
Definition obj_spread (a b : Headers) : Headers :=
  fold_left (fun o kv => obj_set o (fst kv) (snd kv)) b a.

(* ================================================================== *)
(** * DNS error codes *)
(* ================================================================== *)

(** The constants of Node's [dns] module that the gateway switches on. *)
Module dns.
Definition NOTFOUND : jsval := JStr (js "ENOTFOUND").
Definition REFUSED : jsval := JStr (js "EREFUSED").
Definition CANCELLED : jsval := JStr (js "ECANCELLED").
Definition CONNREFUSED : jsval := JStr (js "ECONNREFUSED").
End dns.

(** [a === b] on the values above. *)
Definition strict_eq (a b : jsval) : bool :=
  match a, b with
  | JUndefined, JUndefined => true
  | JNull, JNull => true
  | JBool x, JBool y => Bool.eqb x y
  | JNum x, JNum y => Z.eqb x y
  | JStr x, JStr y => str_eqb x y
  | JObject x, JObject y => N.eqb x y
  | _, _ => false
  end.

Definition map_dns_status_to_http_code (dns_error_Code : jsval) : N :=
  if strict_eq dns_error_Code dns.NOTFOUND then 404
  else if strict_eq dns_error_Code dns.REFUSED then 403
  else if strict_eq dns_error_Code dns.CANCELLED then 403
  else if strict_eq dns_error_Code dns.CONNREFUSED then 403
  else 500.

(* ================================================================== *)
(** * URL objects *)
(* ================================================================== *)

(** Node's WHATWG [URL] class, as far as the gateway reads and writes it: a
    URL with an authority and a hierarchical path, without credentials.
    [protocol] holds the scheme with its colon, [search] the query with its
    question mark (or nothing), [port] is empty for the scheme's default. *)
Record URL := mkURL {
  url_protocol : jsstring;
  url_hostname : jsstring;
  url_port : jsstring;
  url_pathname : jsstring;
  url_search : jsstring;
  url_hash : jsstring
}.

(** [url.host] *)
Definition url_host (u : URL) : jsstring :=
  match url_port u with
  | [] => url_hostname u
  | _ => url_hostname u ++ js ":" ++ url_port u
  end.

Definition special_schemes : list jsstring :=
  [js "ftp"; js "file"; js "http"; js "https"; js "ws"; js "wss"].

Definition is_special (scheme : jsstring) : bool :=
  existsb (str_eqb scheme) special_schemes.

Definition default_port (scheme : jsstring) : jsstring :=
  if str_eqb scheme (js "ftp") then js "21"
  else if str_eqb scheme (js "http") || str_eqb scheme (js "ws") then js "80"
  else if str_eqb scheme (js "https") || str_eqb scheme (js "wss")
       then js "443"
  else [].

Definition is_alpha (c : N) : bool :=
  ((65 <=? c) && (c <=? 90) || (97 <=? c) && (c <=? 122))%N.

Definition to_lower (c : N) : N :=
  if ((65 <=? c) && (c <=? 90))%N then (c + 32)%N else c.

(** The scheme a value assigned to [url.protocol] stands for: the setter
    parses the value followed by a colon from the scheme start state, so the
    scheme is what comes before the first colon, in lower case; a value that
    does not start with a letter, or has another unit than letters, digits,
    [+], [-] and [.] before the colon, is not a scheme. *)
Fixpoint scheme_units (v : jsstring) : option jsstring :=
  match v with
  | [] => Some []
  | c :: v' =>
      if (c =? 58)%N then Some []
      else if is_alpha c || is_digit c || (c =? 43)%N || (c =? 45)%N
              || (c =? 46)%N
      then option_map (cons (to_lower c)) (scheme_units v')
      else None
  end.

Definition scheme_of_value (v : jsstring) : option jsstring :=
  match v with
  | c :: _ => if is_alpha c then scheme_units v else None
  | [] => None
  end.

(** The scheme of a URL: its [protocol] without the colon. *)
Definition url_scheme (u : URL) : jsstring :=
  removelast (url_protocol u).

(** [url.protocol = v]: ignored when [v] is no scheme, when it would turn a
    special scheme into one that is not or back, when it would give a [file]
    URL a port, or take a [file] URL without a host to another scheme; a port
    that is the new scheme's default is dropped. *)
Definition url_set_protocol (u : URL) (v : jsstring) : URL :=
  match scheme_of_value v with
  | None => u
  | Some scheme =>
      if negb (Bool.eqb (is_special (url_scheme u)) (is_special scheme))
      then u
      else if str_eqb scheme (js "file") && negb (str_eqb (url_port u) [])
      then u
      else if str_eqb (url_scheme u) (js "file")
              && str_eqb (url_hostname u) []
      then u
      else
        mkURL (scheme ++ js ":")
              (url_hostname u)
              (if str_eqb (url_port u) (default_port scheme) then []
               else url_port u)
              (url_pathname u) (url_search u) (url_hash u)
  end.

(** The pathname a URL prints after [v] was assigned to it, for a value that
    is the start of a path the URL printed before (nothing left to escape,
    no dot segment): the value is parsed as a path and printed with a slash
    before each segment, so that a special URL never has an empty
    pathname. *)
Definition path_of_value (special : bool) (v : jsstring) : jsstring :=
  match v with
  | [] => if special then js "/" else []
  | c :: _ => if (c =? 47)%N then v else js "/" ++ v
  end.

(** [url.pathname = v] *)
Definition url_set_pathname (u : URL) (v : jsstring) : URL :=
  mkURL (url_protocol u) (url_hostname u) (url_port u)
        (path_of_value (is_special (url_scheme u)) v)
        (url_search u) (url_hash u).

(** What a parser callback hands back as the backend URL: nothing ([null] or
    [undefined]), a [URL] object, or a string still to be parsed. *)
Inductive url_value :=
| UNull
| UObject (u : URL)
| UString (s : jsstring).

(* ================================================================== *)
(** * Requests, configuration and the per-request record *)
(* ================================================================== *)

(** The part of an Express request the gateway reads. *)
Record Request := mkRequest {
  req_protocol : jsstring;
  req_method : jsstring;
  req_originalUrl : jsstring;
  req_baseUrl : option jsstring;
  req_headers : Headers
}.

(** [req.get('host')] where the gateway goes on to call a string method on
    it: Node leaves the header out or gives a string, and the call on what
    is not a string throws. *)
Definition req_get_host (req : Request) : result jsstring :=
  match obj_get (req_headers req) (js "host") with
  | Some (HStr h) => Ok h
  | _ => Throw TypeError
  end.

Record Gateway := mkGateway {
  gateway_host : option jsstring;
  force_protocol : option jsstring;
  force_http : bool;
  force_websocket_protocol : bool;
  gateway_subdomain : jsstring;
  socket_ports : list N
}.

(** [new Gateway()] *)
Definition default_gateway : Gateway :=
  mkGateway None None true true (js "gateway-proxy") [22%N].

Record GatewayRequestInfo := mkInfo {
  is_gateway_intercept : bool;
  is_gateway_host : bool;
  is_websocket_request : bool;
  target_id : option jsstring;
  gateway_domain_postfix : option jsstring;
  target_method : option jsstring;
  backend_url : url_value
}.

(** [new GatewayRequestInfo()] *)
Definition new_GatewayRequestInfo : GatewayRequestInfo :=
  mkInfo false false false None None None UNull.

(** The four optional callbacks of a [GatewayBackendParser]
    ([invoke_methods]); [None] is [null]. *)
Record GatewayBackendParser := mkParser {
  invoke_parse_url_from_id :
    option (Gateway -> Request -> jsstring -> result url_value);
  invoke_parse_url_from_route :
    option (Gateway -> Request -> result url_value);
  invoke_parse_protocol : option (Gateway -> Request -> result jsstring);
  invoke_parse_method : option (Gateway -> Request -> result jsstring)
}.

(** What [middleware] is given as its parser. *)
Inductive parser_argument :=
| ParserNull
| ParserFunction (f : Gateway -> Request -> result url_value)
| ParserObject (p : GatewayBackendParser).

(** [console.assert] only prints, so a [null] parser goes through and gives
    a parser with no callback at all. *)
Definition _validate_parser (parser : parser_argument) : GatewayBackendParser :=
  match parser with
  | ParserObject p => p
  | ParserFunction f => mkParser None (Some f) None None
  | ParserNull => mkParser None None None None
  end.

(* ================================================================== *)
(** * What a request makes the gateway do *)
(* ================================================================== *)

Inductive log_level := DEBUG | INFO | WARN | ERROR.

(** The texts the middleware logs, by the template they are built from. *)
Inductive log_message :=
| MsgStartingWebsocket (originalUrl : jsstring) (backend : url_value)
| MsgRedirect (redirect_path : jsstring)
| MsgProcessingError (err : exn)
| MsgWebsocketSetupError.

(** The options object given to [http.request] or [https.request]. *)
Record RequestOptions := mkOptions {
  opt_method : option jsstring;
  opt_protocol : jsstring;
  opt_hostname : jsstring;
  opt_port : jsstring;
  opt_path : jsstring;
  opt_headers : Headers
}.

Inductive transport := PlainHttp | Tls.

(** The calls the middleware makes on its collaborators, in order. *)
Inductive action :=
| ANext (args : list jsval)
| AEmitError (err : exn)
| AEmitLog (level : log_level) (msg : log_message)
| ARedirect (status : N) (location : jsstring)
| ASendStatus (status : N)
| AClientSocketSetup
| AUpstreamRequest (via : transport) (options : RequestOptions)
| APipeRequestBody.

(** A computation that calls collaborators and may throw: the calls made so
    far and either a value or the exception. *)
Definition M (A : Type) : Type := (list action * result A)%type.

Definition mret {A} (a : A) : M A := ([], Ok a).

Definition mbind {A B} (m : M A) (k : A -> M B) : M B :=
  match m with
  | (t, Ok a) => let (t', r) := k a in (t ++ t', r)
  | (t, Throw e) => (t, Throw e)
  end.

Definition lift {A} (r : result A) : M A := ([], r).

Definition tell (a : action) : M unit := ([a], Ok tt).

(** [try { m } catch (err) { handler(err) }] *)
Definition try_catch {A} (m : M A) (handler : exn -> M A) : M A :=
  match m with
  | (t, Throw e) => let (t', r) := handler e in (t ++ t', r)
  | _ => m
  end.

Declare Scope m_scope.
Delimit Scope m_scope with M.
Notation "x <- m ;; k" := (mbind m (fun x => k))
  (at level 61, m at next level, right associativity) : m_scope.
Notation "m ;;; k" := (mbind m (fun _ => k))
  (at level 61, right associativity) : m_scope.

(** A run of the request filter: the argument lists it called the [next] it
    was given with, in order, and what it returned or threw. *)
Record filter_run := mkFilterRun {
  next_calls : list (list jsval);
  outcome : result jsval
}.

Definition GatewayRequestFilter : Type :=
  GatewayRequestInfo -> Request -> filter_run.

(** What the client socket is made to do when the upstream answers a
    websocket request with an upgrade. *)
Inductive socket_action :=
| ProxyOnError
| ProxyUnshift (head : jsstring)
| ProxyOnClose
| ClientOnClose
| ProxySocketSetup
| ClientWrite (data : jsstring)
| Splice.

(** What [create_websocket_socket_header] is called with. *)
Inductive header_argument :=
| ArgString (s : jsstring)
| ArgArray (l : list jsstring)
| ArgObject (o : Headers).

(** [key + ': ' + ov] for a value that is not an array. *)
Definition header_line (key : jsstring) (ov : header_value) : jsstring :=
  match ov with
  | HNull => key ++ js ": " ++ js "null"
  | HStr s => key ++ js ": " ++ s
  | HArr l => key ++ js ": " ++ join (js ",") l
  end.

(** The loop over [Object.keys(v)] for a header object.  For an array value
    the callback of [forEach] reads [value], a name that is bound nowhere: it
    throws at the first element, and an empty array adds nothing. *)
Fixpoint header_object_lines (o : Headers) (lines : list jsstring)
  : result (list jsstring) :=
  match o with
  | [] => Ok lines
  | (key, ov) :: o' =>
      match ov with
      | HArr [] => header_object_lines o' lines
      | HArr (_ :: _) => Throw ReferenceError
      | _ => header_object_lines o' (lines ++ [header_line key ov])
      end
  end.

(** The same loop over an array [v], whose keys are its indices and whose
    values are strings. *)
Fixpoint header_array_lines (v : list jsstring) (i : N) (lines : list jsstring)
  : list jsstring :=
  match v with
  | [] => lines
  | ov :: v' =>
      header_array_lines v' (i + 1)%N (lines ++ [toString i ++ js ": " ++ ov])
  end.

Fixpoint header_lines (args : list header_argument) (lines : list jsstring)
  : result (list jsstring) :=
  match args with
  | [] => Ok lines
  | v :: args' =>
      match v with
      | ArgArray l =>
          header_lines args' (header_array_lines l 0%N (lines ++ l))
      | ArgObject o =>
          rbind (header_object_lines o lines) (header_lines args')
      | ArgString s => header_lines args' (lines ++ [s])
      end
  end.

Definition CRLF : jsstring := [13%N; 10%N].

Definition create_websocket_socket_header (args : list header_argument)
  : result jsstring :=
  rbind (header_lines args [])
        (fun lines => Ok (join CRLF lines ++ CRLF ++ CRLF)).

(** The listener of the upstream request's [upgrade] event: what it did to
    the sockets, and the exception that stopped it, if any. *)
Definition on_upgrade (proxy_rsp_headers : Headers) (proxy_head : option jsstring)
  : list socket_action * option exn :=
  let before :=
    [ProxyOnError]
    ++ match proxy_head with
       | Some (c :: h) => [ProxyUnshift (c :: h)]
       | _ => []
       end
    ++ [ProxyOnClose; ClientOnClose; ProxySocketSetup] in
  match create_websocket_socket_header
          [ArgString (js "HTTP/1.1 101 Switching Protocols");
           ArgObject proxy_rsp_headers] with
  | Ok header => (before ++ [ClientWrite header; Splice], None)
  | Throw e => (before, Some e)
  end.

(* ================================================================== *)
(** * The calls into Node and Express that can fail or rewrite *)
(* ================================================================== *)

(** [0-9A-Fa-f] *)
Definition is_hex (c : N) : bool :=
  (is_digit c || (65 <=? c) && (c <=? 70) || (97 <=? c) && (c <=? 102))%N.

(** A token of HTTP, as Node checks a method and a header name:
    [/^[\^_`a-zA-Z\-0-9!#$%&'*+.|~]+$/]. *)
Definition is_token_unit (c : N) : bool :=
  is_alpha c || is_digit c || existsb (N.eqb c) (js "^_`-!#$%&'*+.|~").

Definition is_http_token (s : jsstring) : bool :=
  match s with
  | [] => false
  | _ => forallb is_token_unit s
  end.

(** A header value Node lets through: [/[^\t\x20-\x7e\x80-\xff]/] finds
    nothing in it. *)
Definition header_value_ok (s : jsstring) : bool :=
  forallb (fun c => ((c =? 9) || (32 <=? c) && (c <=? 126)
                     || (128 <=? c) && (c <=? 255))%N) s.

Definition header_ok (kv : jsstring * header_value) : bool :=
  is_http_token (fst kv)
  && match snd kv with
     | HNull => true
     | HStr s => header_value_ok s
     | HArr l => header_value_ok (join (js ",") l)
     end.

(** [http.request(options)] and [https.request(options)], as far as the
    call itself decides: Node's [ClientRequest] throws a TypeError at once
    for a path with a unit outside [\u0021-\u00ff], for a protocol other
    than the one of the module called ([http:], [https:]; none given counts
    as that one), for a method that is no token (none, or the empty string,
    is [GET]) and for a header whose name is no token or whose value has a
    forbidden unit.  The connection itself comes later, as events. *)
Definition http_request (via : transport) (options : RequestOptions)
  : result unit :=
  let path_ok :=
    forallb (fun c => ((33 <=? c) && (c <=? 255))%N) (opt_path options) in
  let expected :=
    match via with
    | PlainHttp => js "http:"
    | Tls => js "https:"
    end in
  let protocol_ok :=
    match opt_protocol options with
    | [] => true
    | p => str_eqb p expected
    end in
  let method_ok :=
    match opt_method options with
    | None | Some [] => true
    | Some m => is_http_token m
    end in
  if path_ok && protocol_ok && method_ok
     && forallb header_ok (opt_headers options)
  then Ok tt
  else Throw TypeError.

(** ** [encodeUrl], which Express applies to a redirect target *)

Definition is_high_surrogate (c : N) : bool :=
  ((55296 <=? c) && (c <=? 56319))%N.

Definition is_low_surrogate (c : N) : bool :=
  ((56320 <=? c) && (c <=? 57343))%N.

(** The first pass of [encodeUrl]:
    [replace(/(^|[^\uD800-\uDBFF])[\uDC00-\uDFFF]|[\uD800-\uDBFF]([^\uDC00-\uDFFF]|$)/g, '$1\uFFFD$2')];
    [at_start] says that no unit of the string was passed yet.  A match
    takes the unit before or after the surrogate with it, so a second
    unmatched surrogate right behind is not seen. *)
Fixpoint replace_unmatched_surrogates (s : jsstring) (at_start : bool)
  : jsstring :=
  match s with
  | [] => []
  | c :: t =>
      if at_start && is_low_surrogate c
      then 65533%N :: replace_unmatched_surrogates t false
      else
        match t with
        | d :: t' =>
            if negb (is_high_surrogate c) && is_low_surrogate d
            then c :: 65533%N :: replace_unmatched_surrogates t' false
            else if is_high_surrogate c && negb (is_low_surrogate d)
            then 65533%N :: d :: replace_unmatched_surrogates t' false
            else c :: replace_unmatched_surrogates t false
        | [] =>
            if is_high_surrogate c then [65533%N] else [c]
        end
  end.

(** The class [[\x21\x25\x26-\x3B\x3D\x3F-\x5B\x5D\x5F\x61-\x7A\x7E]] that
    the second pass does not touch. *)
Definition url_class (c : N) : bool :=
  ((c =? 33) || (c =? 37) || (38 <=? c) && (c <=? 59) || (c =? 61)
   || (63 <=? c) && (c <=? 91) || (c =? 93) || (c =? 95)
   || (97 <=? c) && (c <=? 122) || (c =? 126))%N.

(** How many units the alternative of the second pattern,
    [[^class]|%(?:[^0-9A-Fa-f]|[0-9A-Fa-f][^0-9A-Fa-f]|$)], takes at the
    head of [s]; 0 when it does not match there. *)
Definition bad_item_length (s : jsstring) : nat :=
  match s with
  | [] => 0
  | c :: t =>
      if negb (url_class c) then 1
      else if (c =? 37)%N then
        match t with
        | [] => 1
        | d :: t' =>
            if negb (is_hex d) then 2
            else match t' with
                 | e :: _ => if negb (is_hex e) then 3 else 0
                 | [] => 0
                 end
        end
      else 0
  end%nat.

(** The units [encodeURI] leaves as they are. *)
Definition uri_unescaped (c : N) : bool :=
  is_alpha c || is_digit c || existsb (N.eqb c) (js ";/?:@&=+$,#-_.!~*'()").

Definition hex_digit (n : N) : N :=
  if (n <? 10)%N then (48 + n)%N else (55 + n)%N.

(** [%XX] for one octet. *)
Definition percent_octet (b : N) : jsstring :=
  [37%N; hex_digit (b / 16); hex_digit (b mod 16)].

(** The octets of a code point in UTF-8. *)
Definition utf8 (cp : N) : list N :=
  (if cp <? 128 then [cp]
   else if cp <? 2048 then [192 + cp / 64; 128 + cp mod 64]
   else if cp <? 65536
        then [224 + cp / 4096; 128 + (cp / 64) mod 64; 128 + cp mod 64]
   else [240 + cp / 262144; 128 + (cp / 4096) mod 64;
         128 + (cp / 64) mod 64; 128 + cp mod 64])%N.

Definition percent_encode (cp : N) : jsstring :=
  flat_map percent_octet (utf8 cp).

(** The second pass of [encodeUrl]: every run of units the pattern matches
    is replaced by [encodeURI] of it.  [pending] counts the units that an
    alternative already taken still covers.  [encodeURI] throws a URIError
    on a surrogate that the first pass left without its partner. *)
Fixpoint encode_runs (s : jsstring) (pending : nat) : result jsstring :=
  match s with
  | [] => Ok []
  | c :: t =>
      match (match pending with
             | O => bad_item_length s
             | _ => pending
             end) with
      | O => rbind (encode_runs t 0) (fun r => Ok (c :: r))
      | S n =>
          if uri_unescaped c
          then rbind (encode_runs t n) (fun r => Ok (c :: r))
          else if is_high_surrogate c then
            match t with
            | l :: t' =>
                if is_low_surrogate l
                then rbind (encode_runs t' (pred n))
                       (fun r =>
                          Ok (percent_encode
                                (65536 + (c - 55296) * 1024 + (l - 56320))
                              ++ r))
                else Throw URIError
            | [] => Throw URIError
            end
          else if is_low_surrogate c then Throw URIError
          else rbind (encode_runs t n)
                 (fun r => Ok (percent_encode c ++ r))
      end
  end.

(** [encodeUrl(url)] of the [encodeurl] package (1.0.2, with Express 4). *)
Definition encodeUrl (url : jsstring) : result jsstring :=
  encode_runs (replace_unmatched_surrogates url true) 0.

(** [res.redirect(url)] of Express 4: the status is 302 and the [Location]
    header is [encodeUrl(url)]. *)
Definition res_redirect (url : jsstring) : M unit :=
  match encodeUrl url with
  | Ok location => ([ARedirect 302 location], Ok tt)
  | Throw e => ([], Throw e)
  end.

(* ================================================================== *)
(** * The backend parser, the classifier and the middleware *)
(* ================================================================== *)

Section Middleware.

(** [new URL(s)], Node's parser of URL strings; it throws on a string that
    is no URL. *)
Variable URL_new : jsstring -> result URL.

Local Open Scope result_scope.

(** ** GatewayBackendParser *)

Definition parse_url_from_id (parser : GatewayBackendParser)
    (gateway : Gateway) (req : Request) (target_id : jsstring)
  : result url_value :=
  match invoke_parse_url_from_id parser with
  | Some f => f gateway req target_id
  | None =>
      let parsed_from_id :=
        req_protocol req ++ js "://" ++ target_id ++ req_originalUrl req in
      url <- URL_new parsed_from_id ;;
      Ok (UObject url)
  end.

Definition parse_url_from_route (parser : GatewayBackendParser)
    (gateway : Gateway) (req : Request) : result url_value :=
  match invoke_parse_url_from_route parser with
  | Some f => f gateway req
  | None =>
      let base :=
        match req_baseUrl req with
        | Some (c :: b) => c :: b
        | _ => []
        end in
      let request_path :=
        substr_from (req_originalUrl req) (JsString.length base) in
      url <- URL_new (req_protocol req ++ js "://" ++ request_path) ;;
      Ok (UObject url)
  end.

Definition parse_protocol (parser : GatewayBackendParser)
    (gateway : Gateway) (req : Request) : result jsstring :=
  match invoke_parse_protocol parser with
  | Some f => f gateway req
  | None =>
      let target_protocol := req_protocol req in
      let target_protocol :=
        match force_protocol gateway with
        | Some p => p
        | None => target_protocol
        end in
      let target_protocol :=
        if force_http gateway && str_eqb target_protocol (js "https")
        then js "http"
        else target_protocol in
      Ok target_protocol
  end.

Definition parse_method (parser : GatewayBackendParser)
    (gateway : Gateway) (req : Request) : result jsstring :=
  match invoke_parse_method parser with
  | Some f => f gateway req
  | None => Ok (req_method req)
  end.

(** ** Gateway *)

Definition get_gateway_host (gateway : Gateway) (req : Request)
  : result jsstring :=
  match gateway_host gateway with
  | Some h => Ok h
  | None =>
      host <- req_get_host req ;;
      let subdomain_prefix :=
        js "." ++ gateway_subdomain gateway ++ js "." in
      let last_index := lastIndexOf host subdomain_prefix in
      if (last_index =? -1)%Z then Ok host
      else Ok (substr_from host
                 (last_index + JsString.length subdomain_prefix))
  end.

(** [req.headers[key] != null] *)
Definition header_present (req : Request) (key : jsstring) : bool :=
  match obj_get (req_headers req) key with
  | None | Some HNull => false
  | Some _ => true
  end.

(** [req.headers[key] == s] for a string [s]: an array is compared through
    its elements joined by commas. *)
Definition header_loose_eq (req : Request) (key s : jsstring) : bool :=
  match obj_get (req_headers req) key with
  | Some (HStr v) => str_eqb v s
  | Some (HArr l) => str_eqb (join (js ",") l) s
  | _ => false
  end.

Definition _parse_request_core_info (parser : GatewayBackendParser)
    (gateway : Gateway) (info : GatewayRequestInfo) (req : Request)
  : result GatewayRequestInfo :=
  gh <- get_gateway_host gateway req ;;
  req_host <- req_get_host req ;;
  let postfix := gateway_subdomain gateway ++ js "." ++ gh in
  let gateway_host_hit := endsWith req_host postfix in
  let websocket :=
    header_present req (js "sec-websocket-protocol")
    || header_loose_eq req (js "upgrade") (js "websocket") in
  if gateway_host_hit then
    let id :=
      decode_hostname
        (substr req_host 0
           (JsString.length req_host - JsString.length postfix - 1)) in
    url <- parse_url_from_id parser gateway req id ;;
    Ok (mkInfo (is_gateway_intercept info) true websocket (Some id)
               (Some postfix) (target_method info) url)
  else
    Ok (mkInfo (is_gateway_intercept info) false websocket (target_id info)
               (Some postfix) (target_method info) (backend_url info)).

(** [pathname.replace(/\/[.]websocket$/, '')]: without the [m] flag the
    dollar only matches at the end of the string. *)
Definition strip_websocket (pathname : jsstring) : jsstring :=
  if endsWith pathname (js "/.websocket")
  then firstn (List.length pathname - List.length (js "/.websocket"))
              pathname
  else pathname.

(** [a || b] on a string that may be [null]: the empty string is falsy. *)
Definition or_else (a : option jsstring) (b : jsstring) : jsstring :=
  match a with
  | Some (c :: s) => c :: s
  | _ => b
  end.

Definition _parse_request_intercept_info (parser : GatewayBackendParser)
    (gateway : Gateway) (info : GatewayRequestInfo) (req : Request)
  : result GatewayRequestInfo :=
  url0 <- (if negb (is_gateway_host info)
           then parse_url_from_route parser gateway req
           else Ok (backend_url info)) ;;
  match url0 with
  | UNull =>
      Ok (mkInfo false (is_gateway_host info) (is_websocket_request info)
                 (target_id info) (gateway_domain_postfix info)
                 (target_method info) UNull)
  | _ =>
      url <- match url0 with
             | UObject u => Ok u
             | UString s => URL_new s
             | UNull => Throw TypeError
             end ;;
      let id := or_else (target_id info) (url_host url) in
      method <- parse_method parser gateway req ;;
      protocol <- parse_protocol parser gateway req ;;
      let url := url_set_protocol url protocol in
      let url :=
        if is_websocket_request info
        then url_set_pathname url (strip_websocket (url_pathname url))
        else url in
      Ok (mkInfo true (is_gateway_host info) (is_websocket_request info)
                 (Some id) (gateway_domain_postfix info) (Some method)
                 (UObject url))
  end.

(** The reads of [info.backend_url.<field>]: they throw on [null]; the
    middleware reaches them only after the classifier has stored a [URL]
    object. *)
Definition info_url (info : GatewayRequestInfo) : result URL :=
  match backend_url info with
  | UObject u => Ok u
  | _ => Throw TypeError
  end.

Definition get_gateway_host_redirect (gateway : Gateway) (req : Request)
    (info : GatewayRequestInfo) : result jsstring :=
  redirect_host <- get_gateway_host gateway req ;;
  url <- info_url info ;;
  id <- match target_id info with
        | Some id => Ok id
        | None => Throw TypeError
        end ;;
  Ok (url_protocol url ++ js "//" ++ encode_hostname id ++ js "."
      ++ gateway_subdomain gateway ++ js "." ++ redirect_host
      ++ url_pathname url ++ url_search url).

(** [(options.headers.host || '')] as the string [endsWith] is called on. *)
Definition host_or_empty (headers : Headers) : result jsstring :=
  match obj_get headers (js "host") with
  | None | Some HNull => Ok []
  | Some (HStr []) => Ok []
  | Some (HStr h) => Ok h
  | Some (HArr _) => Throw TypeError
  end.

(** [create_proxy_request] up to the call of [http.request] or
    [https.request]: the transport chosen and the options handed to it. *)
Definition create_proxy_request (req : Request) (info : GatewayRequestInfo)
    (headers : option Headers) (override_headers : bool)
  : result (transport * RequestOptions) :=
  url <- info_url info ;;
  let headers0 :=
    obj_spread (if override_headers then [] else req_headers req)
               (match headers with Some h => h | None => [] end) in
  host <- host_or_empty headers0 ;;
  let headers1 :=
    if endsWith host (url_host url)
    then obj_set headers0 (js "host") HNull
    else headers0 in
  let via :=
    if str_eqb (url_protocol url) (js "wss:")
       || str_eqb (url_protocol url) (js "https:")
    then Tls else PlainHttp in
  Ok (via,
      mkOptions (target_method info) (url_protocol url) (url_hostname url)
                (url_port url) (url_pathname url ++ url_search url)
                headers1).

Local Close Scope result_scope.
Local Open Scope m_scope.

(** [send_proxy_request]: [create_proxy_request] makes the request with
    [http.request] or [https.request]; when Node refuses the options, the
    exception leaves the function before the body is piped. *)
Definition send_proxy_request (req : Request) (info : GatewayRequestInfo)
  : M unit :=
  r <- lift (create_proxy_request req info None false) ;;
  lift (http_request (fst r) (snd r)) ;;;
  tell (AUpstreamRequest (fst r) (snd r)) ;;;
  tell APipeRequestBody.

(** [create_websocket_proxy]: the same request, made inside a [try] whose
    [catch] emits the error and logs it, and gives no answer. *)
Definition create_websocket_proxy (req : Request) (info : GatewayRequestInfo)
  : M unit :=
  try_catch
    (tell AClientSocketSetup ;;;
     r <- lift (create_proxy_request req info None false) ;;
     lift (http_request (fst r) (snd r)) ;;;
     tell (AUpstreamRequest (fst r) (snd r)) ;;;
     tell APipeRequestBody)
    (fun err =>
       tell (AEmitError err) ;;;
       tell (AEmitLog ERROR MsgWebsocketSetupError)).

(** The part of [run_middleware] after the filter. *)
Definition dispatch (parser : GatewayBackendParser) (gateway : Gateway)
    (info : GatewayRequestInfo) (req : Request) (next : list jsval -> jsval)
  : M jsval :=
  info <- lift (_parse_request_intercept_info parser gateway info req) ;;
  if negb (is_gateway_intercept info) then
    tell (ANext []) ;;; mret (next [])
  else if is_websocket_request info then
    tell (AEmitLog INFO
            (MsgStartingWebsocket (req_originalUrl req) (backend_url info))) ;;;
    create_websocket_proxy req info ;;;
    mret JUndefined
  else if negb (is_gateway_host info) then
    redirect_path <- lift (get_gateway_host_redirect gateway req info) ;;
    tell (AEmitLog INFO (MsgRedirect redirect_path)) ;;;
    res_redirect redirect_path ;;;
    mret JUndefined
  else
    send_proxy_request req info ;;;
    mret JUndefined.

(** [run_middleware], the handler [middleware(parser, request_filter)]
    returns; the value is what its promise resolves to. *)
Definition run_middleware (gateway : Gateway) (parser : GatewayBackendParser)
    (request_filter : option GatewayRequestFilter)
    (req : Request) (next : list jsval -> jsval) : M jsval :=
  try_catch
    (info <- lift (_parse_request_core_info parser gateway
                     new_GatewayRequestInfo req) ;;
     match request_filter with
     | None => dispatch parser gateway info req next
     | Some f =>
         let run := f info req in
         let is_next_override :=
           match next_calls run with [] => false | _ => true end in
         let next_override_result :=
           match next_calls run with
           | [] => JNull
           | c :: cs => next (last cs c)
           end in
         (List.map ANext (next_calls run), Ok tt) ;;;
         v <- lift (outcome run) ;;
         let is_allowed := negb (strict_eq_false v) in
         if negb is_allowed || is_next_override then
           if negb is_next_override
           then tell (ANext []) ;;; mret (next [])
           else mret next_override_result
         else dispatch parser gateway info req next
     end)
    (fun err =>
       tell (AEmitError err) ;;;
       tell (AEmitLog ERROR (MsgProcessingError err)) ;;;
       tell (ASendStatus 500) ;;;
       mret JUndefined).

Definition middleware (gateway : Gateway) (parser : parser_argument)
    (request_filter : option GatewayRequestFilter)
  : Request -> (list jsval -> jsval) -> M jsval :=
  run_middleware gateway (_validate_parser parser) request_filter.

End Middleware.

(* ================================================================== *)
(** * Notions used to state the properties *)
(* ================================================================== *)

(** The head of [s] is a dot, an [e] and three digits, followed by a unit
    whose encoding starts with a dot (a dot itself, or a unit that gets
    escaped): after encoding, these units read as an escape that
    [encode_hostname] never wrote. *)
Definition reads_as_escape (s : jsstring) : bool :=
  match s with
  | c0 :: c1 :: d1 :: d2 :: d3 :: x :: _ =>
      is_escape c0 c1 d1 d2 d3 46%N && ((x =? 46)%N || negb (is_safe x))
  | _ => false
  end.

(** No position of [s] reads as an escape. *)
Fixpoint escape_free (s : jsstring) : bool :=
  match s with
  | [] => true
  | _ :: t => negb (reads_as_escape s) && escape_free t
  end.

(** The escape of one unsafe code unit is six units long, matches the
    pattern of [decode_hostname], and is replaced by that unit. *)
Definition escape_ok (c : N) : bool :=
  match encode_replacer c with
  | [a; b; d1; d2; d3; f] =>
      is_escape a b d1 d2 d3 f
      && str_eqb (decode_replacer [a; b; d1; d2; d3; f]) [c]
  | _ => false
  end.

(** The calls that reach out of the middleware for the backend or send the
    client elsewhere. *)
Definition is_upstream_action (a : action) : bool :=
  match a with
  | ARedirect _ _ | AClientSocketSetup | AUpstreamRequest _ _
  | APipeRequestBody => true
  | _ => false
  end.

Definition is_next_action (a : action) : bool :=
  match a with
  | ANext _ => true
  | _ => false
  end.

(** A header object whose values are all strings. *)
Definition scalar_headers (o : Headers) : bool :=
  forallb (fun kv => match snd kv with HStr _ => true | _ => false end) o.

(** The filter, if there is one, neither called the [next] it was given nor
    returned [false] nor threw: the middleware goes on to classify. *)
Definition filter_proceeds (request_filter : option GatewayRequestFilter)
    (info : GatewayRequestInfo) (req : Request) : bool :=
  match request_filter with
  | None => true
  | Some f =>
      match next_calls (f info req), outcome (f info req) with
      | [], Ok v => negb (strict_eq_false v)
      | _, _ => false
      end
  end.

(** The filter, if there is one, returned. *)
Definition filter_returns (request_filter : option GatewayRequestFilter)
    (info : GatewayRequestInfo) (req : Request) : bool :=
  match request_filter with
  | None => true
  | Some f =>
      match outcome (f info req) with
      | Ok _ => true
      | Throw _ => false
      end
  end.

(** The URL object the classifier starts from: what the parser gave for the
    request, made a [URL] if it was a string. *)
Definition parser_url (URL_new : jsstring -> result URL)
    (parser : GatewayBackendParser) (gateway : Gateway)
    (info : GatewayRequestInfo) (req : Request) : result URL :=
  rbind (if negb (is_gateway_host info)
         then parse_url_from_route URL_new parser gateway req
         else Ok (backend_url info))
        (fun v => match v with
                  | UObject u => Ok u
                  | UString s => URL_new s
                  | UNull => Throw TypeError
                  end).

(** A unit [encodeUrl] keeps wherever it stands. *)
Definition url_kept (c : N) : bool :=
  (url_class c && negb (c =? 37) || (c =? 35) || (c =? 36))%N.

(** Every unit of [s] is one [encodeUrl] keeps, a percent sign being kept
    when two hexadecimal digits follow it. *)
Fixpoint url_plain (s : jsstring) : bool :=
  match s with
  | [] => true
  | c :: t =>
      (if (c =? 37)%N
       then match t with
            | d :: e :: _ => is_hex d && is_hex e
            | _ => false
            end
       else url_kept c)
      && url_plain t
  end.




(* ================================================================== *)
(** * Example requests *)
(* ================================================================== *)

Module Examples.

(** In these examples the parser callbacks hand out [URL] objects, so that no
    string is parsed; this stands in for [new URL]. *)
Definition no_URL_new : jsstring -> result URL := fun _ => Throw TypeError.

Definition gateway : Gateway :=
  mkGateway (Some (js "example.com")) None true true (js "gateway-proxy")
            [22%N].

(** The same gateway with [force_protocol: 'wss']. *)
Definition gateway_wss : Gateway :=
  mkGateway (Some (js "example.com")) (Some (js "wss")) true true
            (js "gateway-proxy") [22%N].

Definition backend : URL :=
  mkURL (js "http:") (js "127.0.0.1") (js "3030") (js "/x") [] [].

Definition backend_ws : URL :=
  mkURL (js "http:") (js "127.0.0.1") (js "3030") (js "/echo/ws/.websocket")
        [] [].

(** A parser that sends every request to [backend]. *)
Definition parser : GatewayBackendParser :=
  mkParser (Some (fun _ _ _ => Ok (UObject backend)))
           (Some (fun _ _ => Ok (UObject backend))) None None.

Definition parser_ws : GatewayBackendParser :=
  mkParser None (Some (fun _ _ => Ok (UObject backend_ws))) None None.

(** A parser that knows no route. *)
Definition parser_null : GatewayBackendParser :=
  _validate_parser (ParserFunction (fun _ _ => Ok UNull)).

(** [GET http://example.com/backend/x] *)
Definition request : Request :=
  mkRequest (js "http") (js "GET") (js "/backend/x") (Some [])
            [(js "host", HStr (js "example.com"));
             (js "accept", HStr (js "*/*"))].

(** [GET http://127.0.0.1.e058.3030.gateway-proxy.example.com/x] *)
Definition request_host_mode : Request :=
  mkRequest (js "http") (js "GET") (js "/x") (Some [])
            [(js "host",
              HStr (js "127.0.0.1.e058.3030.gateway-proxy.example.com"));
             (js "accept", HStr (js "*/*"))].

(** A websocket handshake on [/backend/ws]. *)
Definition request_ws : Request :=
  mkRequest (js "http") (js "GET") (js "/backend/ws") (Some [])
            [(js "host", HStr (js "example.com"));
             (js "upgrade", HStr (js "websocket"));
             (js "connection", HStr (js "Upgrade"))].

(** A request whose [host] is the backend's own. *)
Definition request_self : Request :=
  mkRequest (js "http") (js "GET") (js "/x") (Some [])
            [(js "host", HStr (js "127.0.0.1:3030"));
             (js "accept", HStr (js "*/*"))].

Definition next : list jsval -> jsval := fun _ => JUndefined.

Definition filter_veto : GatewayRequestFilter :=
  fun _ _ => mkFilterRun [] (Ok (JBool false)).

Definition filter_calls_next : GatewayRequestFilter :=
  fun _ _ => mkFilterRun [[]] (Ok JUndefined).

Definition filter_allows : GatewayRequestFilter :=
  fun _ _ => mkFilterRun [] (Ok JUndefined).

(** What the first phase stores for [request]. *)
Definition info_core : GatewayRequestInfo :=
  mkInfo false false false None (Some (js "gateway-proxy.example.com")) None
         UNull.

(** What the second phase stores for [request]. *)
Definition info_intercept : GatewayRequestInfo :=
  mkInfo true false false (Some (js "127.0.0.1:3030"))
         (Some (js "gateway-proxy.example.com")) (Some (js "GET"))
         (UObject backend).

(** What the two phases store for [request_ws] with [parser_ws]. *)
Definition info_core_ws : GatewayRequestInfo :=
  mkInfo false false true None (Some (js "gateway-proxy.example.com")) None
         UNull.

Definition info_intercept_ws : GatewayRequestInfo :=
  mkInfo true false true (Some (js "127.0.0.1:3030"))
         (Some (js "gateway-proxy.example.com")) (Some (js "GET"))
         (UObject (mkURL (js "http:") (js "127.0.0.1") (js "3030")
                         (js "/echo/ws") [] [])).

(** What the two phases store for [request_host_mode] under
    [gateway_wss]. *)
Definition info_core_host_mode : GatewayRequestInfo :=
  mkInfo false true false (Some (js "127.0.0.1:3030"))
         (Some (js "gateway-proxy.example.com")) None (UObject backend).



(** [http://127.0.0.1:3030/x?a={1}&b=`c`] as a [URL] object: braces and
    backticks stay as they are in a query. *)
Definition backend_query : URL :=
  mkURL (js "http:") (js "127.0.0.1") (js "3030") (js "/x")
        (js "?a={1}&b=`c`") [].

Definition parser_query : GatewayBackendParser :=
  mkParser None (Some (fun _ _ => Ok (UObject backend_query))) None None.

(** [GET http://example.com/backend/x?a={1}&b=`c`] *)
Definition request_query : Request :=
  mkRequest (js "http") (js "GET") (js "/backend/x?a={1}&b=`c`") (Some [])
            [(js "host", HStr (js "example.com"))].

(** What the second phase stores for it. *)
Definition info_intercept_query : GatewayRequestInfo :=
  mkInfo true false false (Some (js "127.0.0.1:3030"))
         (Some (js "gateway-proxy.example.com")) (Some (js "GET"))
         (UObject backend_query).

Definition info_intercept_wss : GatewayRequestInfo :=
  mkInfo true true false (Some (js "127.0.0.1:3030"))
         (Some (js "gateway-proxy.example.com")) (Some (js "GET"))
         (UObject (mkURL (js "wss:") (js "127.0.0.1") (js "3030") (js "/x")
                         [] [])).

End Examples.

(* ================================================================== *)
(** * Errors of the upstream request *)
(* ================================================================== *)

(** [v] is truthy. *)
Definition truthy (v : jsval) : bool :=
  match v with
  | JUndefined | JNull => false
  | JBool b => b
  | JNum n => negb (n =? 0)%Z
  | JStr [] => false
  | JStr (_ :: _) => true
  | JObject _ => true
  end.

(** The fields of an error object that the gateway reads and writes. *)
Record ProxyError := mkProxyError {
  err_code : jsval;
  err_message : jsval;
  err_statusCode : jsval;
  err_originalCode : jsval
}.

(** What the error handling of an upstream request does: the events it
    emits and the one answer it gives. *)
Inductive error_action :=
| ErrEmitError (err : ProxyError)
| ErrEmitLog (level : log_level) (status : N) (message : jsval)
| ErrSendStatus (status : N)
| ErrNext (err : ProxyError).

(** [err.code || '[unknown]'] *)
Definition original_code (err : ProxyError) : jsval :=
  if truthy (err_code err) then err_code err else JStr (js "[unknown]").

Definition _handle_proxy_request_error (err : ProxyError)
    (info : GatewayRequestInfo) : list error_action :=
  let originalCode := original_code err in
  let status := map_dns_status_to_http_code originalCode in
  (if (status =? 500)%N
   then [ErrEmitLog ERROR status (err_message err)]
   else [])
  ++ (if is_websocket_request info
      then [ErrSendStatus status]
      else [ErrNext (mkProxyError (JNum (Z.of_N status)) (err_message err)
                       (JNum (Z.of_N status)) originalCode)]).

(** The listener [create_proxy_request] puts on the [error] event of the
    upstream request. *)
Definition on_proxy_request_error (err : ProxyError)
    (info : GatewayRequestInfo) : list error_action :=
  ErrEmitError err :: _handle_proxy_request_error err info.

(* ================================================================== *)
(** * Further notions used to state properties *)
(* ================================================================== *)

(** The first six units of [h] match [[.]e[0-9]{3}[.]]. *)
Definition matches_escape (h : jsstring) : bool :=
  match h with
  | c0 :: c1 :: d1 :: d2 :: d3 :: c5 :: _ => is_escape c0 c1 d1 d2 d3 c5
  | _ => false
  end.

(** The pattern matches at no position of [h]. *)
Fixpoint escape_match_free (h : jsstring) : bool :=
  match h with
  | [] => true
  | _ :: t => negb (matches_escape h) && escape_match_free t
  end.

(** The number of code units of [s] that [encode_hostname] escapes. *)
Definition count_unsafe (s : jsstring) : nat :=
  List.length (filter (fun c => negb (is_safe c)) s).

(** [p] occurs in [s]. *)
Definition occurs_in (p s : jsstring) : Prop :=
  exists a b, s = a ++ p ++ b.

(** A header whose value is an array with at least one element. *)
Definition is_array_header (kv : jsstring * header_value) : bool :=
  match snd kv with
  | HArr (_ :: _) => true
  | _ => false
  end.

(** The lines of a header object none of whose values is an array with an
    element: one per header, none for an empty array. *)
Definition header_lines_of (o : Headers) : list jsstring :=
  flat_map (fun kv => match snd kv with
                      | HArr _ => []
                      | v => [header_line (fst kv) v]
                      end) o.

Definition is_redirect_action (a : action) : bool :=
  match a with
  | ARedirect _ _ => true
  | _ => false
  end.

Definition is_next_error (a : error_action) : bool :=
  match a with
  | ErrNext _ => true
  | _ => false
  end.

Definition is_send_status (a : error_action) : bool :=
  match a with
  | ErrSendStatus _ => true
  | _ => false
  end.

Definition is_error_log (a : error_action) : bool :=
  match a with
  | ErrEmitLog _ _ _ => true
  | _ => false
  end.

(** The upstream request for [info] with no headers given: its transport
    and options, once [http.request] or [https.request] has taken them. *)
Definition proxy_request_made (req : Request) (info : GatewayRequestInfo)
  : result (transport * RequestOptions) :=
  rbind (create_proxy_request req info None false)
        (fun r => rbind (http_request (fst r) (snd r)) (fun _ => Ok r)).

(** What the [upgrade] listener does to the sockets before it answers the
    client. *)
Definition upgrade_set_up (proxy_head : option jsstring) : list socket_action :=
  ProxyOnError
  :: match proxy_head with
     | Some h => if (0 <? List.length h)%nat then [ProxyUnshift h] else []
     | None => []
     end
  ++ [ProxyOnClose; ClientOnClose; ProxySocketSetup].

(** What the [catch] of [run_middleware] does with an exception. *)
Definition answer_500 (err : exn) : M jsval :=
  ([AEmitError err; AEmitLog ERROR (MsgProcessingError err); ASendStatus 500],
   Ok JUndefined).

Module MoreExamples.

(** A request without a [host] header. *)
Definition request_no_host : Request :=
  mkRequest (js "http") (js "GET") (js "/backend/x") (Some [])
            [(js "accept", HStr (js "*/*"))].


(** A gateway that reads its own host from the request. *)
Definition gateway_auto : Gateway :=
  mkGateway None None true true (js "gateway-proxy") [22%N].

(** A parser without callbacks. *)
Definition parser_default : GatewayBackendParser :=
  _validate_parser ParserNull.

(** [new URL] on the one string the example below gives it. *)
Definition URL_new_one : jsstring -> result URL :=
  fun s => if str_eqb s (js "http:///127.0.0.1:3030/x")
           then Ok Examples.backend else Throw TypeError.

(** [GET /gateway/127.0.0.1:3030/x] under the mount path [/gateway]. *)
Definition request_mounted : Request :=
  mkRequest (js "http") (js "GET") (js "/gateway/127.0.0.1:3030/x")
            (Some (js "/gateway"))
            [(js "host", HStr (js "example.com"))].

(** What the second phase stores for [Examples.request_host_mode]. *)
Definition info_intercept_host_mode : GatewayRequestInfo :=
  mkInfo true true false (Some (js "127.0.0.1:3030"))
         (Some (js "gateway-proxy.example.com")) (Some (js "GET"))
         (UObject Examples.backend).

End MoreExamples.

(* ================================================================== *)
(** * Strings: basic facts *)
(* ================================================================== *)

Lemma str_eqb_eq (a b : jsstring) : str_eqb a b = true <-> a = b.
Proof.
  revert b; induction a as [|x a IH]; intros [|y b]; simpl;
    try (split; [discriminate | congruence]); try tauto.
  rewrite andb_true_iff, N.eqb_eq, IH.
  split; [intros [-> ->]; reflexivity | intros H; inversion H; auto].
Qed.

Lemma str_eqb_refl (a : jsstring) : str_eqb a a = true.
Proof. apply str_eqb_eq; reflexivity. Qed.

Lemma str_eqb_neq (a b : jsstring) : str_eqb a b = false <-> a <> b.
Proof.
  rewrite <- str_eqb_eq. destruct (str_eqb a b); split; congruence.
Qed.

Lemma endsWith_app (s p : jsstring) : endsWith (s ++ p) p = true.
Proof.
  unfold endsWith. rewrite length_app.
  replace (List.length p <=? List.length s + List.length p)%nat with true
    by (symmetry; apply Nat.leb_le; lia).
  replace (List.length s + List.length p - List.length p)%nat
    with (List.length s + 0)%nat by lia.
  rewrite skipn_app, Nat.add_0_r, skipn_all, Nat.sub_diag. simpl.
  apply str_eqb_refl.
Qed.

Lemma endsWith_split (s p : jsstring) :
  endsWith s p = true ->
  s = firstn (List.length s - List.length p) s ++ p.
Proof.
  unfold endsWith. destruct (List.length p <=? List.length s)%nat;
    [|discriminate].
  intros H. apply str_eqb_eq in H.
  rewrite <- (firstn_skipn (List.length s - List.length p) s) at 1.
  now rewrite H.
Qed.

(* ================================================================== *)
(** * Hostname codec: facts *)
(* ================================================================== *)

Lemma is_digit_safe (c : N) : is_digit c = true -> is_safe c = true.
Proof.
  unfold is_safe, is_word. intros ->. rewrite orb_true_r. reflexivity.
Qed.

Lemma uint_digits_safe (u : Decimal.uint) :
  forallb is_safe (uint_digits u) = true.
Proof. induction u; simpl; auto. Qed.

Lemma forallb_repeat {A} (f : A -> bool) (x : A) (n : nat) :
  f x = true -> forallb f (repeat x n) = true.
Proof. intros H. induction n; simpl; [reflexivity | now rewrite H]. Qed.

Lemma encode_replacer_safe (c : N) :
  forallb is_safe (encode_replacer c) = true.
Proof.
  unfold encode_replacer, padStart, toString.
  rewrite !forallb_app, forallb_repeat, uint_digits_safe by reflexivity.
  reflexivity.
Qed.

Lemma encode_unit_safe (c : N) : forallb is_safe (encode_unit c) = true.
Proof.
  unfold encode_unit. destruct (is_safe c) eqn:E.
  - simpl. now rewrite E.
  - apply encode_replacer_safe.
Qed.

Lemma encode_hostname_cons (c : N) (s : jsstring) :
  encode_hostname (c :: s) = encode_unit c ++ encode_hostname s.
Proof. reflexivity. Qed.

Lemma encode_hostname_safe (s : jsstring) :
  forallb is_safe (encode_hostname s) = true.
Proof.
  induction s as [|c s IH]; [reflexivity|].
  rewrite encode_hostname_cons, forallb_app, encode_unit_safe, IH.
  reflexivity.
Qed.

Lemma encode_hostname_id (s : jsstring) :
  forallb is_safe s = true -> encode_hostname s = s.
Proof.
  induction s as [|c s IH]; [reflexivity|].
  simpl forallb. rewrite andb_true_iff. intros [Hc Hs].
  rewrite encode_hostname_cons. unfold encode_unit. rewrite Hc.
  simpl. now rewrite IH.
Qed.

Lemma encode_replacer_head (c : N) :
  exists r, encode_replacer c = 46%N :: 101%N :: r.
Proof. unfold encode_replacer. eexists. reflexivity. Qed.

Lemma escape_ok_all :
  forallb escape_ok (List.map N.of_nat (seq 0 1000)) = true.
Proof. vm_compute. reflexivity. Qed.

Lemma escape_ok_le (c : N) : (c <=? 999)%N = true -> escape_ok c = true.
Proof.
  intros H. apply N.leb_le in H.
  pose proof escape_ok_all as A. rewrite forallb_forall in A.
  apply A. rewrite <- (N2Nat.id c). apply in_map, in_seq. lia.
Qed.

Lemma decode_hostname_cons (c0 : N) (t0 : jsstring) :
  decode_hostname (c0 :: t0) =
  match t0 with
  | c1 :: d1 :: d2 :: d3 :: c5 :: rest =>
      if is_escape c0 c1 d1 d2 d3 c5
      then decode_replacer [c0; c1; d1; d2; d3; c5] ++ decode_hostname rest
      else c0 :: decode_hostname t0
  | _ => c0 :: decode_hostname t0
  end.
Proof. reflexivity. Qed.

(** Where no escape starts, [decode_hostname] copies one unit. *)
Lemma decode_hostname_copy (c0 : N) (t0 : jsstring) :
  (forall c1 d1 d2 d3 c5 rest,
      t0 = c1 :: d1 :: d2 :: d3 :: c5 :: rest ->
      is_escape c0 c1 d1 d2 d3 c5 = false) ->
  decode_hostname (c0 :: t0) = c0 :: decode_hostname t0.
Proof.
  intros H. rewrite decode_hostname_cons.
  destruct t0 as [|c1 [|d1 [|d2 [|d3 [|c5 rest]]]]]; try reflexivity.
  now rewrite (H _ _ _ _ _ _ eq_refl).
Qed.

(** The escape of an unsafe unit below 1000 is read back as that unit. *)
Lemma decode_hostname_escape (c : N) (t : jsstring) :
  (c <=? 999)%N = true ->
  decode_hostname (encode_replacer c ++ t) = c :: decode_hostname t.
Proof.
  intros H. apply escape_ok_le in H. unfold escape_ok in H.
  destruct (encode_replacer c) as [|a [|b [|d1 [|d2 [|d3 [|f [|? ?]]]]]]];
    try discriminate.
  apply andb_true_iff in H. destruct H as [He Hd].
  apply str_eqb_eq in Hd.
  change ([a; b; d1; d2; d3; f] ++ t) with (a :: b :: d1 :: d2 :: d3 :: f :: t).
  rewrite decode_hostname_cons, He, Hd. reflexivity.
Qed.

(** The first unit of an encoding: the unit itself when it is safe, a dot
    otherwise. *)
Lemma encode_hostname_head (x h : N) (s rest : jsstring) :
  encode_hostname (x :: s) = h :: rest ->
  (is_safe x = true /\ h = x /\ rest = encode_hostname s)
  \/ (is_safe x = false /\ h = 46%N).
Proof.
  rewrite encode_hostname_cons. unfold encode_unit.
  destruct (is_safe x) eqn:E.
  - simpl. intros H. inversion H. left. auto.
  - destruct (encode_replacer_head x) as [r ->]. simpl.
    intros H. inversion H. right. auto.
Qed.

Lemma is_escape_dot_digit (c0 c1 d1 d2 d3 c5 : N) :
  is_escape c0 c1 d1 d2 d3 c5 = true ->
  c0 = 46%N /\ c1 = 101%N /\ is_digit d1 = true /\ is_digit d2 = true
  /\ is_digit d3 = true /\ c5 = 46%N.
Proof.
  unfold is_escape. rewrite !andb_true_iff, !N.eqb_eq. tauto.
Qed.

(** A dot of the source that is copied into the encoding starts no escape
    there, unless the source reads as an escape at that dot. *)
Lemma encode_hostname_no_escape (s : jsstring) (c1 d1 d2 d3 c5 : N)
    (rest : jsstring) :
  reads_as_escape (46%N :: s) = false ->
  encode_hostname s = c1 :: d1 :: d2 :: d3 :: c5 :: rest ->
  is_escape 46 c1 d1 d2 d3 c5 = false.
Proof.
  intros Hfree Henc.
  destruct (is_escape 46 c1 d1 d2 d3 c5) eqn:E; [exfalso | reflexivity].
  apply is_escape_dot_digit in E.
  destruct E as (_ & E1 & E2 & E3 & E4 & E5). subst c1 c5.
  destruct s as [|x1 s]; [discriminate|].
  apply encode_hostname_head in Henc.
  destruct Henc as [(S1 & <- & Henc) | (_ & ?)]; [|discriminate].
  symmetry in Henc.
  destruct s as [|x2 s]; [discriminate|].
  apply encode_hostname_head in Henc.
  destruct Henc as [(S2 & <- & Henc) | (_ & ->)]; [|discriminate].
  symmetry in Henc.
  destruct s as [|x3 s]; [discriminate|].
  apply encode_hostname_head in Henc.
  destruct Henc as [(S3 & <- & Henc) | (_ & ->)]; [|discriminate].
  symmetry in Henc.
  destruct s as [|x4 s]; [discriminate|].
  apply encode_hostname_head in Henc.
  destruct Henc as [(S4 & <- & Henc) | (_ & ->)]; [|discriminate].
  symmetry in Henc.
  destruct s as [|x5 s]; [discriminate|].
  apply encode_hostname_head in Henc.
  simpl in Hfree. unfold is_escape in Hfree.
  rewrite E2, E3, E4 in Hfree. simpl in Hfree.
  destruct Henc as [(S5 & <- & _) | (S5 & _)].
  - simpl in Hfree. discriminate.
  - rewrite S5, orb_true_r in Hfree. discriminate.
Qed.

Lemma escape_free_tail (c : N) (s : jsstring) :
  escape_free (c :: s) = true ->
  reads_as_escape (c :: s) = false /\ escape_free s = true.
Proof.
  simpl escape_free. rewrite andb_true_iff, negb_true_iff. tauto.
Qed.

Lemma decode_encode_escape_free (s : jsstring) :
  forallb (fun c => (c <=? 999)%N) s = true ->
  escape_free s = true ->
  decode_hostname (encode_hostname s) = s.
Proof.
  induction s as [|c s IH]; [reflexivity|].
  intros Hle Hfree. simpl forallb in Hle. apply andb_true_iff in Hle.
  destruct Hle as [Hc Hle].
  apply escape_free_tail in Hfree. destruct Hfree as [Hhead Hfree].
  rewrite encode_hostname_cons. unfold encode_unit.
  destruct (is_safe c) eqn:Esafe.
  - change ([c] ++ encode_hostname s) with (c :: encode_hostname s).
    rewrite decode_hostname_copy.
    + now rewrite IH.
    + intros c1 d1 d2 d3 c5 rest Henc.
      destruct (N.eq_dec c 46) as [-> | Hne].
      * eapply encode_hostname_no_escape; eassumption.
      * unfold is_escape. apply N.eqb_neq in Hne. now rewrite Hne.
  - rewrite decode_hostname_escape by assumption. now rewrite IH.
Qed.


(** ** The round trip fails wherever the source reads as an escape *)

Lemma escape_le_shape (c : N) :
  (c <=? 999)%N = true ->
  exists n1 n2 n3,
    encode_replacer c = [46; 101; n1; n2; n3; 46]%N
    /\ is_digit n1 = true /\ is_digit n2 = true /\ is_digit n3 = true
    /\ decode_replacer [46; 101; n1; n2; n3; 46]%N = [c].
Proof.
  intros H. apply escape_ok_le in H. unfold escape_ok in H.
  destruct (encode_replacer c) as [|a [|b [|d1 [|d2 [|d3 [|f [|? ?]]]]]]];
    try discriminate.
  apply andb_true_iff in H. destruct H as [He Hd].
  apply str_eqb_eq in Hd. apply is_escape_dot_digit in He.
  destruct He as (-> & -> & E1 & E2 & E3 & ->).
  exists d1, d2, d3. auto.
Qed.

Lemma decode_replacer_length (str : jsstring) :
  List.length (decode_replacer str) = 1%nat.
Proof.
  unfold decode_replacer, fromCharCode.
  destruct (parseInt (substr str 2 3)); reflexivity.
Qed.

Lemma forallb_cons_inv {A} (f : A -> bool) (a : A) (l : list A) :
  forallb f (a :: l) = true -> f a = true /\ forallb f l = true.
Proof. simpl. now rewrite andb_true_iff. Qed.

(** Drops the head of a list known to satisfy a test everywhere. *)
Ltac drop_head H :=
  let Hd := fresh in
  apply forallb_cons_inv in H; destruct H as [Hd H]; clear Hd.

Lemma is_digit_not_dot (d : N) : is_digit d = true -> d <> 46%N.
Proof. intros H ->. discriminate. Qed.

Lemma decode_hostname_copy_other (c0 : N) (t0 : jsstring) :
  c0 <> 46%N -> decode_hostname (c0 :: t0) = c0 :: decode_hostname t0.
Proof.
  intros H. apply decode_hostname_copy. intros. unfold is_escape.
  apply N.eqb_neq in H. now rewrite H.
Qed.

(** Where the encoding of [t] goes on, after a dot, like an escape, [t]
    itself starts with [e] and three digits, and the closing dot is either a
    dot of [t] or the opening dot of the escape of an unsafe unit. *)
Lemma escape_in_encoding (t : jsstring) (d1 d2 d3 : N) (rest : jsstring) :
  forallb (fun c => (c <=? 999)%N) t = true ->
  is_digit d1 = true -> is_digit d2 = true -> is_digit d3 = true ->
  encode_hostname t = 101%N :: d1 :: d2 :: d3 :: 46%N :: rest ->
  exists x t5,
    t = 101%N :: d1 :: d2 :: d3 :: x :: t5
    /\ ((x = 46%N /\ rest = encode_hostname t5)
        \/ (is_safe x = false
            /\ exists n1 n2 n3,
                 rest = 101%N :: n1 :: n2 :: n3 :: 46%N :: encode_hostname t5
                 /\ is_digit n1 = true /\ is_digit n2 = true
                 /\ is_digit n3 = true
                 /\ decode_replacer [46; 101; n1; n2; n3; 46]%N = [x])).
Proof.
  intros Hle E1 E2 E3 Henc.
  destruct t as [|x1 t]; [discriminate|].
  apply encode_hostname_head in Henc.
  destruct Henc as [(_ & <- & Henc) | (_ & ?)]; [|discriminate].
  symmetry in Henc.
  destruct t as [|x2 t]; [discriminate|].
  apply encode_hostname_head in Henc.
  destruct Henc as [(_ & <- & Henc) | (_ & ->)]; [|discriminate].
  symmetry in Henc.
  destruct t as [|x3 t]; [discriminate|].
  apply encode_hostname_head in Henc.
  destruct Henc as [(_ & <- & Henc) | (_ & ->)]; [|discriminate].
  symmetry in Henc.
  destruct t as [|x4 t]; [discriminate|].
  apply encode_hostname_head in Henc.
  destruct Henc as [(_ & <- & Henc) | (_ & ->)]; [|discriminate].
  symmetry in Henc.
  destruct t as [|x5 t]; [discriminate|].
  exists x5, t. split; [reflexivity|].
  do 4 drop_head Hle. apply forallb_cons_inv in Hle. destruct Hle as [Hx _].
  rewrite encode_hostname_cons in Henc. unfold encode_unit in Henc.
  destruct (is_safe x5) eqn:S5.
  - left. inversion Henc. auto.
  - right. split; [reflexivity|].
    destruct (escape_le_shape x5 Hx) as (n1 & n2 & n3 & Hr & N1 & N2 & N3 & Hd).
    rewrite Hr in Henc. inversion Henc. exists n1, n2, n3. auto.
Qed.

(** Decoding the rest of an escape whose opening dot was taken as the
    closing dot of another one: the four units are copied. *)
Lemma decode_hostname_broken_escape (n1 n2 n3 : N) (t5 : jsstring) :
  is_digit n1 = true -> is_digit n2 = true -> is_digit n3 = true ->
  decode_hostname (101%N :: n1 :: n2 :: n3 :: 46%N :: encode_hostname t5)
  = 101%N :: n1 :: n2 :: n3 :: decode_hostname (encode_hostname (46%N :: t5)).
Proof.
  intros N1 N2 N3.
  rewrite decode_hostname_copy_other by discriminate.
  rewrite !decode_hostname_copy_other by now apply is_digit_not_dot.
  reflexivity.
Qed.

(** Decoding an encoding never gives more units than the source had. *)
Lemma decode_encode_length_le (n : nat) (s : jsstring) :
  (List.length s <= n)%nat ->
  forallb (fun c => (c <=? 999)%N) s = true ->
  (List.length (decode_hostname (encode_hostname s)) <= List.length s)%nat.
Proof.
  revert s. induction n as [|n IH]; intros [|c t] Hn Hle;
    try (simpl; lia); [simpl in Hn; lia|].
  simpl in Hn. simpl forallb in Hle. apply andb_true_iff in Hle.
  destruct Hle as [Hc Hle].
  assert (List.length (decode_hostname (encode_hostname t))
          <= List.length t)%nat as IHt by (apply IH; [lia | assumption]).
  rewrite encode_hostname_cons. unfold encode_unit.
  destruct (is_safe c) eqn:Esafe.
  - change ([c] ++ encode_hostname t) with (c :: encode_hostname t).
    rewrite decode_hostname_cons.
    destruct (encode_hostname t) as [|c1 [|d1 [|d2 [|d3 [|c5 rest]]]]] eqn:Henc;
      try (simpl List.length in *; lia).
    destruct (is_escape c c1 d1 d2 d3 c5) eqn:He;
      [|simpl List.length in *; lia].
    apply is_escape_dot_digit in He.
    destruct He as (-> & -> & E1 & E2 & E3 & ->).
    destruct (escape_in_encoding t Hle E1 E2 E3 Henc)
      as (x & t5 & -> & [[-> ->] | (Sx & n1 & n2 & n3 & -> & N1 & N2 & N3 & _)]).
    + rewrite length_app, decode_replacer_length.
      do 5 drop_head Hle.
      assert (List.length (decode_hostname (encode_hostname t5))
              <= List.length t5)%nat
        by (apply IH; [simpl in Hn; lia | assumption]).
      simpl List.length. lia.
    + rewrite length_app, decode_replacer_length.
      rewrite decode_hostname_broken_escape by assumption.
      do 5 drop_head Hle.
      assert (List.length (decode_hostname (encode_hostname (46%N :: t5)))
              <= List.length (46%N :: t5))%nat
        by (apply IH; [simpl in Hn |- *; lia | simpl; assumption]).
      simpl List.length in *. lia.
  - rewrite decode_hostname_escape by assumption. simpl. lia.
Qed.

Lemma reads_as_escape_inv (s : jsstring) :
  reads_as_escape s = true ->
  exists d1 d2 d3 x t5,
    s = 46%N :: 101%N :: d1 :: d2 :: d3 :: x :: t5
    /\ is_digit d1 = true /\ is_digit d2 = true /\ is_digit d3 = true
    /\ (x = 46%N \/ is_safe x = false).
Proof.
  destruct s as [|c0 [|c1 [|d1 [|d2 [|d3 [|x t5]]]]]]; try discriminate.
  simpl. rewrite andb_true_iff. intros [He Hx].
  apply is_escape_dot_digit in He.
  destruct He as (-> & -> & E1 & E2 & E3 & _).
  exists d1, d2, d3, x, t5. repeat split; auto.
  apply orb_true_iff in Hx. destruct Hx as [Hx | Hx].
  - left. now apply N.eqb_eq.
  - right. now apply negb_true_iff.
Qed.

Lemma encode_hostname_escape_like (d1 d2 d3 : N) (t : jsstring) :
  is_digit d1 = true -> is_digit d2 = true -> is_digit d3 = true ->
  encode_hostname (46%N :: 101%N :: d1 :: d2 :: d3 :: t)
  = 46%N :: 101%N :: d1 :: d2 :: d3 :: encode_hostname t.
Proof.
  intros E1 E2 E3. rewrite !encode_hostname_cons. unfold encode_unit.
  rewrite (@is_digit_safe d1 E1), (@is_digit_safe d2 E2),
    (@is_digit_safe d3 E3).
  reflexivity.
Qed.

Lemma decode_encode_reads_as_escape (s : jsstring) :
  forallb (fun c => (c <=? 999)%N) s = true ->
  reads_as_escape s = true ->
  decode_hostname (encode_hostname s) <> s.
Proof.
  intros Hle Hr.
  destruct (reads_as_escape_inv s Hr)
    as (d1 & d2 & d3 & x & t5 & -> & E1 & E2 & E3 & Hx).
  do 5 drop_head Hle. apply forallb_cons_inv in Hle.
  destruct Hle as [Hxle Hle].
  rewrite encode_hostname_escape_like by assumption.
  rewrite encode_hostname_cons. unfold encode_unit.
  destruct Hx as [-> | Sx].
  - change (is_safe 46) with true. cbv iota.
    change ([46%N] ++ encode_hostname t5) with (46%N :: encode_hostname t5).
    rewrite decode_hostname_cons.
    replace (is_escape 46 101 d1 d2 d3 46) with true
      by (unfold is_escape; now rewrite E1, E2, E3).
    cbv iota.
    intros Heq. apply (f_equal (@List.length N)) in Heq.
    rewrite length_app, decode_replacer_length in Heq.
    pose proof (@decode_encode_length_le (List.length t5) t5 (le_n _) Hle).
    simpl in Heq. lia.
  - rewrite Sx.
    destruct (escape_le_shape x Hxle)
      as (n1 & n2 & n3 & -> & N1 & N2 & N3 & Hd).
    change ([46%N; 101%N; n1; n2; n3; 46%N] ++ encode_hostname t5)
      with (46%N :: 101%N :: n1 :: n2 :: n3 :: 46%N :: encode_hostname t5).
    rewrite decode_hostname_cons.
    replace (is_escape 46 101 d1 d2 d3 46) with true
      by (unfold is_escape; now rewrite E1, E2, E3).
    cbv iota.
    rewrite decode_hostname_broken_escape by assumption.
    pose proof (decode_replacer_length [46; 101; d1; d2; d3; 46]%N) as Hl.
    destruct (decode_replacer [46; 101; d1; d2; d3; 46]%N) as [|k [|? ?]] eqn:Hk;
      try discriminate.
    simpl. intros Heq. inversion Heq. subst.
    rewrite Hk in Hd. inversion Hd. subst x. discriminate.
Qed.

Lemma decode_encode_not_escape_free (s : jsstring) :
  forallb (fun c => (c <=? 999)%N) s = true ->
  escape_free s = false ->
  decode_hostname (encode_hostname s) <> s.
Proof.
  induction s as [|c s IH]; [discriminate|].
  intros Hle Hfree.
  destruct (reads_as_escape (c :: s)) eqn:Hr.
  - now apply decode_encode_reads_as_escape.
  - change (escape_free (c :: s))
      with (negb (reads_as_escape (c :: s)) && escape_free s) in Hfree.
    rewrite Hr in Hfree. simpl in Hfree.
    simpl forallb in Hle. apply andb_true_iff in Hle.
    destruct Hle as [Hc Hle]. specialize (IH Hle Hfree).
    rewrite encode_hostname_cons. unfold encode_unit.
    destruct (is_safe c) eqn:Esafe.
    + change ([c] ++ encode_hostname s) with (c :: encode_hostname s).
      rewrite decode_hostname_copy; [congruence|].
      intros c1 d1 d2 d3 c5 rest Henc.
      destruct (N.eq_dec c 46) as [-> | Hne].
      * eapply encode_hostname_no_escape; eassumption.
      * unfold is_escape. apply N.eqb_neq in Hne. now rewrite Hne.
    + rewrite decode_hostname_escape by assumption. congruence.
Qed.

(* ================================================================== *)
(** * Hostname codec: the properties *)
(* ================================================================== *)

Example encode_example :
  encode_hostname (js "127.0.0.1:3000") = js "127.0.0.1.e058.3000".
Proof. reflexivity. Qed.

Example decode_example :
  decode_hostname (js "127.0.0.1.e058.3000") = js "127.0.0.1:3000".
Proof. reflexivity. Qed.

(** C1, as stated, fails: the string [.e058.] has only safe units, all below
    1000, so [encode_hostname] returns it as it is, and [decode_hostname]
    then reads it as the escape of a colon. *)
Lemma C1_round_trip_counterexample :
  forallb (fun c => (c <=? 999)%N) (js ".e058.") = true
  /\ encode_hostname (js ".e058.") = js ".e058."
  /\ decode_hostname (encode_hostname (js ".e058.")) = js ":"
  /\ decode_hostname (encode_hostname (js ".e058.")) <> js ".e058.".
Proof. repeat split; try reflexivity. discriminate. Qed.

(** C1 (amended): for every string [s] whose code units are all at most 999,
    [decode_hostname (encode_hostname s) = s] if and only if no position of
    [s] reads as an escape (a dot, [e], three digits, then a dot or a unit
    that gets escaped); and for every string of safe units,
    [encode_hostname s = s]. *)
Theorem C1_round_trip (s : jsstring) :
  (forallb (fun c => (c <=? 999)%N) s = true ->
   (decode_hostname (encode_hostname s) = s <-> escape_free s = true))
  /\ (forallb is_safe s = true -> encode_hostname s = s).
Proof.
  split.
  - intros Hle. split.
    + intros Heq. destruct (escape_free s) eqn:E; [reflexivity|].
      exfalso. now apply (decode_encode_not_escape_free Hle E).
    + now apply decode_encode_escape_free.
  - apply encode_hostname_id.
Qed.

Lemma C1_round_trip_witness :
  decode_hostname (encode_hostname (js "127.0.0.1:3000")) = js "127.0.0.1:3000"
  /\ encode_hostname (js "my-host_1.example.com") = js "my-host_1.example.com".
Proof.
  split.
  - apply (proj1 (C1_round_trip (js "127.0.0.1:3000"))); reflexivity.
  - apply (proj2 (C1_round_trip (js "my-host_1.example.com"))); reflexivity.
Defined.

(** C10: [encode_hostname] is idempotent, because it only writes safe code
    units and copies safe code units. *)
Theorem C10_encode_idempotent (s : jsstring) :
  forallb is_safe (encode_hostname s) = true
  /\ encode_hostname (encode_hostname s) = encode_hostname s.
Proof.
  split.
  - apply encode_hostname_safe.
  - apply encode_hostname_id, encode_hostname_safe.
Qed.

(* ================================================================== *)
(** * DNS status map *)
(* ================================================================== *)

Lemma strict_eq_eq (a b : jsval) : strict_eq a b = true <-> a = b.
Proof.
  destruct a, b; simpl; try (split; [discriminate | congruence]);
    try tauto.
  - rewrite Bool.eqb_true_iff. split; congruence.
  - rewrite Z.eqb_eq. split; congruence.
  - rewrite str_eqb_eq. split; congruence.
  - rewrite N.eqb_eq. split; congruence.
Qed.

Lemma strict_eq_neq (a b : jsval) : a <> b -> strict_eq a b = false.
Proof.
  intros H. destruct (strict_eq a b) eqn:E; [|reflexivity].
  apply strict_eq_eq in E. contradiction.
Qed.

(** C6: [map_dns_status_to_http_code] gives 403, 404 or 500 on every value;
    [NOTFOUND] gives 404; [REFUSED], [CANCELLED] and [CONNREFUSED] give 403;
    [null], [undefined] and every value that is none of the four tokens give
    500. *)
Theorem C6_dns_map_total (v : jsval) :
  (map_dns_status_to_http_code v = 403%N
   \/ map_dns_status_to_http_code v = 404%N
   \/ map_dns_status_to_http_code v = 500%N)
  /\ map_dns_status_to_http_code dns.NOTFOUND = 404%N
  /\ map_dns_status_to_http_code dns.REFUSED = 403%N
  /\ map_dns_status_to_http_code dns.CANCELLED = 403%N
  /\ map_dns_status_to_http_code dns.CONNREFUSED = 403%N
  /\ map_dns_status_to_http_code JNull = 500%N
  /\ map_dns_status_to_http_code JUndefined = 500%N
  /\ (v <> dns.NOTFOUND -> v <> dns.REFUSED -> v <> dns.CANCELLED ->
      v <> dns.CONNREFUSED -> map_dns_status_to_http_code v = 500%N).
Proof.
  repeat split; try reflexivity.
  - unfold map_dns_status_to_http_code.
    repeat match goal with |- context [if ?b then _ else _] => destruct b end;
      auto.
  - intros H1 H2 H3 H4. unfold map_dns_status_to_http_code.
    now rewrite !strict_eq_neq by assumption.
Qed.

Lemma C6_dns_map_total_witness :
  map_dns_status_to_http_code (JStr (js "[unknown]")) = 500%N.
Proof.
  apply (C6_dns_map_total (JStr (js "[unknown]"))); vm_compute; discriminate.
Defined.

(* ================================================================== *)
(** * The synthesized websocket upgrade response *)
(* ================================================================== *)

Lemma header_object_lines_scalar (o : Headers) (lines : list jsstring) :
  scalar_headers o = true ->
  header_object_lines o lines =
  Ok (lines ++ List.map (fun kv => header_line (fst kv) (snd kv)) o).
Proof.
  revert lines. induction o as [|[k v] o IH]; intros lines H.
  - simpl. now rewrite app_nil_r.
  - simpl in H. apply andb_true_iff in H. destruct H as [Hv Ho].
    destruct v; try discriminate. simpl.
    rewrite IH by assumption. now rewrite <- app_assoc.
Qed.

(** With string values only, the response is the status line and one
    [key: value] line per header, each ended by CRLF, and a blank line. *)
Lemma websocket_header_scalar (status : jsstring) (o : Headers) :
  scalar_headers o = true ->
  create_websocket_socket_header [ArgString status; ArgObject o] =
  Ok (join CRLF (status :: List.map (fun kv => header_line (fst kv) (snd kv)) o)
      ++ CRLF ++ CRLF).
Proof.
  intros H. unfold create_websocket_socket_header. simpl.
  rewrite header_object_lines_scalar by assumption. reflexivity.
Qed.

(** A header whose value is an array with an element stops the
    serialization: nothing is returned. *)
Lemma header_object_lines_array (o : Headers) (lines : list jsstring)
    (key x : jsstring) (l : list jsstring) (o' : Headers) :
  scalar_headers o = true ->
  header_object_lines (o ++ (key, HArr (x :: l)) :: o') lines
  = Throw ReferenceError.
Proof.
  revert lines. induction o as [|[k v] o IH]; intros lines H.
  - reflexivity.
  - simpl in H. apply andb_true_iff in H. destruct H as [Hv Ho].
    destruct v; try discriminate. simpl. now apply IH.
Qed.

Example websocket_header_example :
  create_websocket_socket_header
    [ArgString (js "HTTP/1.1 101 Switching Protocols");
     ArgObject [(js "upgrade", HStr (js "websocket"));
                (js "connection", HStr (js "Upgrade"))]]
  = Ok (js "HTTP/1.1 101 Switching Protocols" ++ CRLF
        ++ js "upgrade: websocket" ++ CRLF
        ++ js "connection: Upgrade" ++ CRLF ++ CRLF).
Proof. reflexivity. Qed.

(** C5 fails on the code: for an upstream response that carries an
    array-valued header (Node gives [set-cookie] as an array), the
    serialization throws a ReferenceError instead of writing one line per
    element, and the [upgrade] listener stops before it writes anything to
    the client socket or splices the sockets. *)
Theorem C5_array_header_throws :
  let headers :=
    [(js "upgrade", HStr (js "websocket"));
     (js "set-cookie", HArr [js "a=1"; js "b=2"])] in
  create_websocket_socket_header
    [ArgString (js "HTTP/1.1 101 Switching Protocols"); ArgObject headers]
  = Throw ReferenceError
  /\ on_upgrade headers None
     = ([ProxyOnError; ProxyOnClose; ClientOnClose; ProxySocketSetup],
        Some ReferenceError).
Proof. split; reflexivity. Qed.

(* ================================================================== *)
(** * Redirect targets: facts *)
(* ================================================================== *)

Lemma url_kept_ascii (c : N) :
  url_kept c = true \/ c = 37%N ->
  is_high_surrogate c = false /\ is_low_surrogate c = false.
Proof.
  intros H.
  assert (c < 128)%N as Hc.
  { destruct H as [H | ->]; [|lia]. unfold url_kept, url_class in H.
    repeat (rewrite ?orb_true_iff, ?andb_true_iff, ?N.leb_le, ?N.eqb_eq,
              ?negb_true_iff, ?N.eqb_neq in H).
    lia. }
  unfold is_high_surrogate, is_low_surrogate.
  split; apply andb_false_iff; rewrite !N.leb_gt; lia.
Qed.

Lemma url_plain_cons (c : N) (t : jsstring) :
  url_plain (c :: t) = true ->
  (url_kept c = true \/ c = 37%N) /\ url_plain t = true.
Proof.
  simpl. rewrite andb_true_iff. intros [H Ht]. split; [|exact Ht].
  destruct (c =? 37)%N eqn:E; [right; now apply N.eqb_eq | now left].
Qed.

(** The first pass leaves a string without surrogates as it is. *)
Lemma replace_unmatched_surrogates_plain (s : jsstring) (at_start : bool) :
  url_plain s = true -> replace_unmatched_surrogates s at_start = s.
Proof.
  revert at_start. induction s as [|c t IH]; intros at_start H;
    [reflexivity|].
  apply url_plain_cons in H. destruct H as [Hc Ht].
  apply url_kept_ascii in Hc. destruct Hc as [Hh Hl].
  cbn [replace_unmatched_surrogates]. rewrite Hh, Hl, andb_false_r.
  destruct t as [|d t']; [reflexivity|].
  pose proof (url_plain_cons _ _ Ht) as [Hd _].
  apply url_kept_ascii in Hd. destruct Hd as [_ Hdl].
  rewrite Hdl. cbn [negb andb]. now rewrite IH.
Qed.

(** The second pass finds nothing to replace in a plain string. *)
Lemma encode_runs_plain (s : jsstring) :
  url_plain s = true -> encode_runs s 0 = Ok s.
Proof.
  induction s as [|c t IH]; intros H; [reflexivity|].
  pose proof (url_plain_cons _ _ H) as [_ Ht].
  cbn [encode_runs]. simpl in H. apply andb_true_iff in H.
  destruct H as [H _].
  destruct (c =? 37)%N eqn:E.
  - apply N.eqb_eq in E. subst c.
    destruct t as [|d [|e t'']]; try discriminate.
    apply andb_true_iff in H. destruct H as [Hd He].
    cbn [bad_item_length]. change (url_class 37) with true.
    cbn [negb]. change (37 =? 37)%N with true. cbv iota.
    rewrite Hd, He. cbn [negb]. now rewrite IH.
  - unfold url_kept in H. rewrite E in H. cbn [negb] in H.
    rewrite andb_true_r in H. cbn [bad_item_length].
    destruct (url_class c) eqn:Ec; cbn [negb].
    + rewrite E. now rewrite IH.
    + simpl in H. apply orb_true_iff in H.
      replace (uri_unescaped c) with true
        by (destruct H as [H | H]; apply N.eqb_eq in H; subst c;
            reflexivity).
      now rewrite IH.
Qed.

Lemma encodeUrl_plain (s : jsstring) :
  url_plain s = true -> encodeUrl s = Ok s.
Proof.
  intros H. unfold encodeUrl.
  rewrite replace_unmatched_surrogates_plain by assumption.
  now apply encode_runs_plain.
Qed.

Example encodeUrl_example :
  encodeUrl (js "http://a.b/x y?a={1}&b=%41%zz")
  = Ok (js "http://a.b/x%20y?a=%7B1%7D&b=%41%25zz").
Proof. reflexivity. Qed.

(* ================================================================== *)
(** * The classifier and the middleware: facts *)
(* ================================================================== *)

Section MiddlewareFacts.

Variable URL_new : jsstring -> result URL.

Lemma rbind_Ok {A B} (m : result A) (k : A -> result B) (b : B) :
  rbind m k = Ok b -> exists a, m = Ok a /\ k a = Ok b.
Proof. destruct m; simpl; [eauto | discriminate]. Qed.

(** A request that passed the first phase has a [host] header, and the
    gateway host could be told. *)
Lemma core_info_inv (parser : GatewayBackendParser) (gateway : Gateway)
    (info0 info : GatewayRequestInfo) (req : Request) :
  _parse_request_core_info URL_new parser gateway info0 req = Ok info ->
  exists gh req_host,
    get_gateway_host gateway req = Ok gh
    /\ req_get_host req = Ok req_host
    /\ gateway_domain_postfix info
       = Some (gateway_subdomain gateway ++ js "." ++ gh)
    /\ is_gateway_host info
       = endsWith req_host (gateway_subdomain gateway ++ js "." ++ gh)
    /\ is_gateway_intercept info = is_gateway_intercept info0.
Proof.
  unfold _parse_request_core_info. intros H.
  apply rbind_Ok in H. destruct H as (gh & Hgh & H).
  apply rbind_Ok in H. destruct H as (h & Hh & H).
  exists gh, h. repeat split; try assumption.
  - destruct (endsWith h _).
    + apply rbind_Ok in H. destruct H as (u & _ & H).
      inversion H. reflexivity.
    + inversion H. reflexivity.
  - destruct (endsWith h _) eqn:E.
    + apply rbind_Ok in H. destruct H as (u & _ & H).
      inversion H. reflexivity.
    + inversion H. reflexivity.
  - destruct (endsWith h _).
    + apply rbind_Ok in H. destruct H as (u & _ & H).
      inversion H. reflexivity.
    + inversion H. reflexivity.
Qed.

(** What the second phase stores when it decides to intercept. *)
Lemma intercept_info_inv (parser : GatewayBackendParser) (gateway : Gateway)
    (info info' : GatewayRequestInfo) (req : Request) :
  _parse_request_intercept_info URL_new parser gateway info req = Ok info' ->
  is_gateway_intercept info' = true ->
  exists url method protocol,
    parser_url URL_new parser gateway info req = Ok url
    /\ parse_method parser gateway req = Ok method
    /\ parse_protocol parser gateway req = Ok protocol
    /\ info' =
       mkInfo true (is_gateway_host info) (is_websocket_request info)
         (Some (or_else (target_id info) (url_host url)))
         (gateway_domain_postfix info) (Some method)
         (UObject
            (let u := url_set_protocol url protocol in
             if is_websocket_request info
             then url_set_pathname u (strip_websocket (url_pathname u))
             else u)).
Proof.
  unfold _parse_request_intercept_info, parser_url. intros H Hi.
  apply rbind_Ok in H. destruct H as (v & Hv & H). rewrite Hv. simpl.
  destruct v as [|u|s].
  - inversion H. subst info'. discriminate.
  - apply rbind_Ok in H. destruct H as (url & Hu & H).
    apply rbind_Ok in H. destruct H as (m & Hm & H).
    apply rbind_Ok in H. destruct H as (p & Hp & H).
    inversion Hu. subst url. exists u, m, p. inversion H. auto.
  - apply rbind_Ok in H. destruct H as (url & Hu & H).
    apply rbind_Ok in H. destruct H as (m & Hm & H).
    apply rbind_Ok in H. destruct H as (p & Hp & H).
    exists url, m, p. inversion H. auto.
Qed.

(** When the filter lets the request through, the middleware does what it
    does without a filter. *)
Lemma run_middleware_proceeds (gateway : Gateway)
    (parser : GatewayBackendParser)
    (request_filter : option GatewayRequestFilter)
    (req : Request) (next : list jsval -> jsval)
    (info : GatewayRequestInfo) :
  _parse_request_core_info URL_new parser gateway new_GatewayRequestInfo req
  = Ok info ->
  filter_proceeds request_filter info req = true ->
  run_middleware URL_new gateway parser request_filter req next
  = run_middleware URL_new gateway parser None req next.
Proof.
  intros H1 Hf. unfold run_middleware. rewrite H1.
  destruct request_filter as [f|]; [|reflexivity].
  unfold filter_proceeds in Hf. simpl.
  destruct (next_calls (f info req)); [|discriminate].
  destruct (outcome (f info req)) as [v|]; [|discriminate].
  simpl. rewrite Hf. simpl.
  destruct (dispatch URL_new parser gateway info req next) as [t [a|e]];
    reflexivity.
Qed.

(** Without a filter, and once the first phase is through, the middleware
    is the dispatch under its [catch]. *)
Lemma run_middleware_dispatch (gateway : Gateway)
    (parser : GatewayBackendParser) (req : Request)
    (next : list jsval -> jsval) (info : GatewayRequestInfo)
    (t : list action) (v : jsval) :
  _parse_request_core_info URL_new parser gateway new_GatewayRequestInfo req
  = Ok info ->
  dispatch URL_new parser gateway info req next = (t, Ok v) ->
  run_middleware URL_new gateway parser None req next = (t, Ok v).
Proof.
  intros H1 Hd. unfold run_middleware. rewrite H1. simpl.
  rewrite Hd. reflexivity.
Qed.

Lemma dispatch_pass_through (gateway : Gateway)
    (parser : GatewayBackendParser) (req : Request)
    (next : list jsval -> jsval) (info : GatewayRequestInfo) :
  is_gateway_host info = false ->
  parse_url_from_route URL_new parser gateway req = Ok UNull ->
  _parse_request_intercept_info URL_new parser gateway info req
  = Ok (mkInfo false false (is_websocket_request info) (target_id info)
          (gateway_domain_postfix info) (target_method info) UNull)
  /\ dispatch URL_new parser gateway info req next
     = ([ANext []], Ok (next [])).
Proof.
  intros Hh Hr.
  assert (_parse_request_intercept_info URL_new parser gateway info req
          = Ok (mkInfo false false (is_websocket_request info)
                  (target_id info) (gateway_domain_postfix info)
                  (target_method info) UNull)) as H.
  { unfold _parse_request_intercept_info. rewrite Hh. simpl.
    rewrite Hr. reflexivity. }
  split; [exact H|]. unfold dispatch. rewrite H. reflexivity.
Qed.

Lemma last_of_calls {A} (c0 c : A) (cs calls : list A) :
  c0 :: cs = calls ++ [c] -> last cs c0 = c.
Proof.
  destruct calls as [|c1 calls]; simpl; intros H; inversion H.
  - reflexivity.
  - apply last_last.
Qed.

Lemma forallb_map_ANext (calls : list (list jsval)) :
  forallb is_next_action (List.map ANext calls) = true.
Proof. induction calls; simpl; auto. Qed.

Lemma existsb_map_ANext (calls : list (list jsval)) :
  existsb is_upstream_action (List.map ANext calls) = false.
Proof. induction calls; simpl; auto. Qed.

(* ---------------------------------------------------------------- *)
(** ** The filter *)

(** C3: with a filter [f] and a request that passed the first phase,
    (a) if [f] returns [false] without calling [next], the middleware calls
    [next()] once, returns its result and does nothing else;
    (b) if [f] called the [next] it was given, the middleware returns the
    result of the (last) call and makes no call of its own, whatever [f]
    returned;
    (c) if [f] returned anything but [false] and did not call [next], the
    middleware goes on as it does without a filter, with the second phase
    of the classification. *)
Theorem C3_filter_tri_state (gateway : Gateway)
    (parser : GatewayBackendParser) (f : GatewayRequestFilter)
    (req : Request) (next : list jsval -> jsval)
    (info : GatewayRequestInfo) :
  _parse_request_core_info URL_new parser gateway new_GatewayRequestInfo req
  = Ok info ->
  (outcome (f info req) = Ok (JBool false) ->
   next_calls (f info req) = [] ->
   run_middleware URL_new gateway parser (Some f) req next
   = ([ANext []], Ok (next [])))
  /\ (forall v calls c,
         outcome (f info req) = Ok v ->
         next_calls (f info req) = calls ++ [c] ->
         run_middleware URL_new gateway parser (Some f) req next
         = (List.map ANext (calls ++ [c]), Ok (next c)))
  /\ (forall v,
         outcome (f info req) = Ok v ->
         v <> JBool false ->
         next_calls (f info req) = [] ->
         run_middleware URL_new gateway parser (Some f) req next
         = run_middleware URL_new gateway parser None req next
         /\ run_middleware URL_new gateway parser None req next
            = try_catch (dispatch URL_new parser gateway info req next)
                (fun err =>
                   ([AEmitError err; AEmitLog ERROR (MsgProcessingError err);
                     ASendStatus 500], Ok JUndefined))).
Proof.
  intros H1. split; [|split].
  - intros Ho Hn. unfold run_middleware. rewrite H1. simpl.
    rewrite Hn, Ho. reflexivity.
  - intros v calls c Ho Hn. unfold run_middleware. rewrite H1. simpl.
    rewrite Ho. destruct (next_calls (f info req)) as [|c0 cs] eqn:E.
    + destruct calls; discriminate.
    + simpl. rewrite orb_true_r. simpl. rewrite app_nil_r.
      rewrite (last_of_calls _ _ Hn), <- Hn. reflexivity.
  - intros v Ho Hv Hn. split.
    + apply run_middleware_proceeds with (info := info); [assumption|].
      unfold filter_proceeds. rewrite Hn, Ho.
      destruct v as [| |[|]| | |]; try reflexivity. congruence.
    + unfold run_middleware. rewrite H1. simpl.
      destruct (dispatch URL_new parser gateway info req next) as [t [a|e]];
        reflexivity.
Qed.

(* ---------------------------------------------------------------- *)
(** ** Redirect *)

(** The redirect branch of the dispatch, under the [catch] of the
    middleware. *)
Lemma dispatch_redirect (parser : GatewayBackendParser) (gateway : Gateway)
    (info0 info : GatewayRequestInfo) (req : Request)
    (next : list jsval -> jsval) (redirect_path : jsstring) :
  _parse_request_intercept_info URL_new parser gateway info0 req = Ok info ->
  is_gateway_intercept info = true ->
  is_websocket_request info = false ->
  is_gateway_host info = false ->
  get_gateway_host_redirect gateway req info = Ok redirect_path ->
  try_catch (dispatch URL_new parser gateway info0 req next) answer_500
  = match encodeUrl redirect_path with
    | Ok location =>
        ([AEmitLog INFO (MsgRedirect redirect_path); ARedirect 302 location],
         Ok JUndefined)
    | Throw e =>
        ([AEmitLog INFO (MsgRedirect redirect_path); AEmitError e;
          AEmitLog ERROR (MsgProcessingError e); ASendStatus 500],
         Ok JUndefined)
    end.
Proof.
  intros H2 Hi Hw Hh Hr. unfold dispatch. rewrite H2.
  cbn [lift mbind app]. rewrite Hi, Hw, Hh. cbn [negb]. rewrite Hr.
  unfold res_redirect.
  destruct (encodeUrl redirect_path); reflexivity.
Qed.

(** C4 (amended): for a request that is let through by the filter, is
    intercepted, is no websocket request and did not come to a gateway host,
    the middleware calls [res.redirect] with exactly [backend_url.protocol +
    "//" + encode_hostname(target_id) + "." + gateway_subdomain + "." +
    gateway_host + backend_url.pathname + backend_url.search], where
    [gateway_host] is what [get_gateway_host] gives for the request.
    Express answers with status 302 and the [Location] header
    [encodeUrl] of that string: the string itself when all its units are
    ones [encodeUrl] keeps.  When [encodeUrl] throws, there is no redirect
    and the request is answered with status 500. *)
Theorem C4_redirect_wire_format (gateway : Gateway)
    (parser : GatewayBackendParser)
    (request_filter : option GatewayRequestFilter)
    (req : Request) (next : list jsval -> jsval)
    (info0 info : GatewayRequestInfo) :
  _parse_request_core_info URL_new parser gateway new_GatewayRequestInfo req
  = Ok info0 ->
  filter_proceeds request_filter info0 req = true ->
  _parse_request_intercept_info URL_new parser gateway info0 req = Ok info ->
  is_gateway_intercept info = true ->
  is_websocket_request info = false ->
  is_gateway_host info = false ->
  exists redirect_host url id,
    get_gateway_host gateway req = Ok redirect_host
    /\ backend_url info = UObject url
    /\ target_id info = Some id
    /\ (let redirect_path :=
          url_protocol url ++ js "//" ++ encode_hostname id ++ js "."
          ++ gateway_subdomain gateway ++ js "." ++ redirect_host
          ++ url_pathname url ++ url_search url in
        (forall location,
            encodeUrl redirect_path = Ok location ->
            run_middleware URL_new gateway parser request_filter req next
            = ([AEmitLog INFO (MsgRedirect redirect_path);
                ARedirect 302 location], Ok JUndefined))
        /\ (url_plain redirect_path = true ->
            run_middleware URL_new gateway parser request_filter req next
            = ([AEmitLog INFO (MsgRedirect redirect_path);
                ARedirect 302 redirect_path], Ok JUndefined))
        /\ (forall e,
              encodeUrl redirect_path = Throw e ->
              run_middleware URL_new gateway parser request_filter req next
              = ([AEmitLog INFO (MsgRedirect redirect_path); AEmitError e;
                  AEmitLog ERROR (MsgProcessingError e); ASendStatus 500],
                 Ok JUndefined))).
Proof.
  intros H1 Hf H2 Hi Hw Hh.
  destruct (core_info_inv _ _ _ _ H1) as (gh & h & Hgh & _).
  destruct (intercept_info_inv _ _ _ _ H2 Hi)
    as (url0 & m & p & _ & _ & _ & Hinfo).
  assert (is_websocket_request info0 = false) as Hw0
    by (rewrite Hinfo in Hw; exact Hw).
  exists gh, (url_set_protocol url0 p),
    (or_else (target_id info0) (url_host url0)).
  split; [exact Hgh|].
  split; [rewrite Hinfo, Hw0; reflexivity|].
  split; [rewrite Hinfo; reflexivity|].
  cbv zeta.
  set (redirect_path :=
         url_protocol (url_set_protocol url0 p) ++ js "//"
         ++ encode_hostname (or_else (target_id info0) (url_host url0))
         ++ js "." ++ gateway_subdomain gateway ++ js "." ++ gh
         ++ url_pathname (url_set_protocol url0 p)
         ++ url_search (url_set_protocol url0 p)).
  assert (get_gateway_host_redirect gateway req info = Ok redirect_path)
    as Hr.
  { unfold get_gateway_host_redirect. rewrite Hgh, Hinfo, Hw0.
    reflexivity. }
  assert (run_middleware URL_new gateway parser request_filter req next
          = try_catch (dispatch URL_new parser gateway info0 req next)
              answer_500) as Hrun.
  { rewrite run_middleware_proceeds with (info := info0) by assumption.
    unfold run_middleware. rewrite H1. cbn [lift mbind app].
    destruct (dispatch URL_new parser gateway info0 req next) as [t [a|e]];
      reflexivity. }
  rewrite Hrun, (@dispatch_redirect parser gateway info0 info req next
                   redirect_path H2 Hi Hw Hh Hr).
  split; [|split].
  - intros location Henc. now rewrite Henc.
  - intros Hplain. now rewrite encodeUrl_plain.
  - intros e Henc. now rewrite Henc.
Qed.

(* ---------------------------------------------------------------- *)
(** ** Pass-through *)

(** C7: for a request that is not addressed to a gateway host and for which
    [parse_url_from_route] returns [null], the second phase leaves
    [is_gateway_intercept] false, and the middleware, whatever a filter
    that returns does, only calls [next] (at least once): no redirect, no
    upstream request, no socket set up.  When the filter lets the request
    through, it is the one call [next()]. *)
Theorem C7_pass_through_safety (gateway : Gateway)
    (parser : GatewayBackendParser)
    (request_filter : option GatewayRequestFilter)
    (req : Request) (next : list jsval -> jsval)
    (info0 : GatewayRequestInfo) :
  _parse_request_core_info URL_new parser gateway new_GatewayRequestInfo req
  = Ok info0 ->
  is_gateway_host info0 = false ->
  parse_url_from_route URL_new parser gateway req = Ok UNull ->
  filter_returns request_filter info0 req = true ->
  (exists info,
      _parse_request_intercept_info URL_new parser gateway info0 req
      = Ok info
      /\ is_gateway_intercept info = false)
  /\ (exists trace v,
         run_middleware URL_new gateway parser request_filter req next
         = (trace, Ok v)
         /\ trace <> []
         /\ forallb is_next_action trace = true
         /\ existsb is_upstream_action trace = false
         /\ (filter_proceeds request_filter info0 req = true ->
             trace = [ANext []] /\ v = next [])).
Proof.
  intros H1 Hh Hr Hf.
  destruct (dispatch_pass_through gateway parser req next info0 Hh Hr)
    as [H2 Hd].
  split; [eexists; split; [exact H2 | reflexivity]|].
  assert (run_middleware URL_new gateway parser None req next
          = ([ANext []], Ok (next []))) as Hnone
    by (apply run_middleware_dispatch with (info := info0); assumption).
  destruct request_filter as [f|].
  - unfold filter_returns in Hf.
    destruct (outcome (f info0 req)) as [v|] eqn:Ho; [|discriminate].
    destruct (next_calls (f info0 req)) as [|c0 cs] eqn:Hn.
    + destruct (strict_eq_false v) eqn:Ev.
      * exists [ANext []], (next []).
        split; [|repeat split; auto; discriminate].
        unfold run_middleware. rewrite H1. simpl.
        rewrite Hn, Ho. simpl. rewrite Ev. reflexivity.
      * exists [ANext []], (next []).
        split; [|repeat split; auto; discriminate].
        rewrite run_middleware_proceeds with (info := info0); auto.
        unfold filter_proceeds. rewrite Hn, Ho, Ev. reflexivity.
    + exists (List.map ANext (c0 :: cs)), (next (last cs c0)).
      split; [|split; [discriminate|]].
      * unfold run_middleware. rewrite H1. simpl.
        rewrite Hn, Ho. simpl. rewrite orb_true_r. simpl.
        now rewrite app_nil_r.
      * split; [apply forallb_map_ANext|].
        split; [apply existsb_map_ANext|].
        unfold filter_proceeds. rewrite Hn. discriminate.
  - exists [ANext []], (next []).
    split; [exact Hnone|]. repeat split; auto. discriminate.
Qed.

(* ---------------------------------------------------------------- *)
(** ** The protocol *)



Lemma url_set_pathname_protocol (u : URL) (v : jsstring) :
  url_protocol (url_set_pathname u v) = url_protocol u.
Proof. reflexivity. Qed.





(* ---------------------------------------------------------------- *)
(** ** The websocket path *)

Lemma strip_websocket_suffix (q : jsstring) :
  strip_websocket (q ++ js "/.websocket") = q.
Proof.
  unfold strip_websocket. rewrite endsWith_app, length_app.
  replace (List.length q + List.length (js "/.websocket")
           - List.length (js "/.websocket"))%nat
    with (List.length q + 0)%nat by lia.
  rewrite firstn_app_2. simpl. apply app_nil_r.
Qed.

Lemma strip_websocket_other (p : jsstring) :
  endsWith p (js "/.websocket") = false -> strip_websocket p = p.
Proof. unfold strip_websocket. now intros ->. Qed.

Lemma path_of_value_slash (special : bool) (v : jsstring) :
  startsWith v (js "/") = true -> path_of_value special v = v.
Proof.
  destruct v as [|c v]; [discriminate|].
  unfold path_of_value. cbn. destruct v; cbn; rewrite ?andb_true_r;
    now intros ->.
Qed.

Lemma url_set_protocol_pathname (u : URL) (v : jsstring) :
  url_pathname (url_set_protocol u v) = url_pathname u.
Proof.
  unfold url_set_protocol.
  repeat match goal with
         | |- context [match ?x with _ => _ end] => destruct x
         end; reflexivity.
Qed.

(** C9: in the [backend_url] of an intercepted request, the pathname is the
    parser's pathname when the request is no websocket request; when it is
    one, the pathname is the parser's without its trailing [/.websocket]
    (the root path when nothing else is left of a special URL), and the
    parser's pathname itself when it does not end that way. *)
Theorem C9_websocket_path_strip (gateway : Gateway)
    (parser : GatewayBackendParser) (req : Request)
    (info info' : GatewayRequestInfo) :
  _parse_request_intercept_info URL_new parser gateway info req = Ok info' ->
  is_gateway_intercept info' = true ->
  exists url0 url,
    parser_url URL_new parser gateway info req = Ok url0
    /\ backend_url info' = UObject url
    /\ is_websocket_request info' = is_websocket_request info
    /\ (is_websocket_request info = false ->
        url_pathname url = url_pathname url0)
    /\ (is_websocket_request info = true ->
        url_pathname url
        = path_of_value (is_special (url_scheme url))
            (strip_websocket (url_pathname url0)))
    /\ (is_websocket_request info = true ->
        forall q,
          url_pathname url0 = q ++ js "/.websocket" ->
          startsWith q (js "/") = true ->
          url_pathname url = q)
    /\ (is_websocket_request info = true ->
        url_pathname url0 = js "/.websocket" ->
        is_special (url_scheme url) = true ->
        url_pathname url = js "/")
    /\ (is_websocket_request info = true ->
        endsWith (url_pathname url0) (js "/.websocket") = false ->
        startsWith (url_pathname url0) (js "/") = true ->
        url_pathname url = url_pathname url0).
Proof.
  intros H2 Hi.
  destruct (intercept_info_inv _ _ _ _ H2 Hi)
    as (url0 & m & p & Hu & _ & _ & Hinfo).
  exists url0. eexists. split; [exact Hu|].
  split; [rewrite Hinfo; reflexivity|].
  split; [rewrite Hinfo; reflexivity|].
  simpl. destruct (is_websocket_request info) eqn:Ew.
  - rewrite url_set_protocol_pathname.
    split; [discriminate|].
    split; [reflexivity|].
    split; [|split].
    + intros _ q Hq Hs. simpl. rewrite Hq, strip_websocket_suffix.
      now apply path_of_value_slash.
    + intros _ Hq Hs. simpl. simpl in Hs. unfold url_scheme in Hs.
      simpl in Hs. fold (url_scheme (url_set_protocol url0 p)) in Hs.
      rewrite Hs, Hq. reflexivity.
    + intros _ He Hs. simpl. rewrite strip_websocket_other by assumption.
      now apply path_of_value_slash.
  - split; [intros _; apply url_set_protocol_pathname|].
    repeat split; discriminate.
Qed.

(* ---------------------------------------------------------------- *)
(** ** The host header *)

Lemma obj_get_set_same (o : Headers) (key : jsstring) (v : header_value) :
  obj_get (obj_set o key v) key = Some v.
Proof.
  induction o as [|[k w] o IH]; simpl.
  - now rewrite str_eqb_refl.
  - destruct (str_eqb k key) eqn:E; simpl; rewrite E; auto.
Qed.

Lemma obj_get_set_other (o : Headers) (key key' : jsstring)
    (v : header_value) :
  key' <> key -> obj_get (obj_set o key v) key' = obj_get o key'.
Proof.
  intros Hne. induction o as [|[k w] o IH]; simpl.
  - apply not_eq_sym in Hne. apply str_eqb_neq in Hne. now rewrite Hne.
  - destruct (str_eqb k key) eqn:E; simpl.
    + apply str_eqb_eq in E. subst k.
      apply not_eq_sym in Hne. apply str_eqb_neq in Hne. now rewrite Hne.
    + destruct (str_eqb k key'); auto.
Qed.

(** C8: the headers [create_proxy_request] hands to the upstream request
    are the client's request headers, with [host] set to [null] when its
    value (the empty string when there is none) ends with
    [backend_url.host]; otherwise they are the client's headers unchanged,
    and in both cases every header but [host] is as the client sent it. *)
Theorem C8_host_header_rewrite (req : Request) (info : GatewayRequestInfo)
    (url : URL) (host : jsstring) :
  backend_url info = UObject url ->
  host_or_empty (req_headers req) = Ok host ->
  exists via options,
    create_proxy_request req info None false = Ok (via, options)
    /\ (endsWith host (url_host url) = true ->
        opt_headers options = obj_set (req_headers req) (js "host") HNull
        /\ obj_get (opt_headers options) (js "host") = Some HNull)
    /\ (endsWith host (url_host url) = false ->
        opt_headers options = req_headers req)
    /\ (forall key,
           key <> js "host" ->
           obj_get (opt_headers options) key = obj_get (req_headers req) key).
Proof.
  intros Hb Hh. unfold create_proxy_request, info_url. rewrite Hb.
  simpl. unfold obj_spread. simpl. rewrite Hh. simpl.
  eexists _, _. split; [reflexivity|]. simpl.
  destruct (endsWith host (url_host url)).
  - split; [intros _; split; [reflexivity | apply obj_get_set_same]|].
    split; [discriminate|].
    intros key Hk. now apply obj_get_set_other.
  - split; [discriminate|]. split; auto.
Qed.

End MiddlewareFacts.

(* ================================================================== *)
(** * The properties on the example requests *)
(* ================================================================== *)

(** The subdomain redirect: [GET http://example.com/backend/x], sent to the
    backend [http://127.0.0.1:3030/x], is redirected to the backend's own
    subdomain of the gateway. *)
Example redirect_example :
  run_middleware Examples.no_URL_new Examples.gateway Examples.parser None
    Examples.request Examples.next
  = (let location :=
       js "http://127.0.0.1.e058.3030.gateway-proxy.example.com/x" in
     ([AEmitLog INFO (MsgRedirect location); ARedirect 302 location],
      Ok JUndefined)).
Proof. reflexivity. Qed.

(** The same request in host mode is proxied. *)
Example host_mode_example :
  run_middleware Examples.no_URL_new Examples.gateway Examples.parser None
    Examples.request_host_mode Examples.next
  = ([AUpstreamRequest PlainHttp
        (mkOptions (Some (js "GET")) (js "http:") (js "127.0.0.1")
           (js "3030") (js "/x") (req_headers Examples.request_host_mode));
      APipeRequestBody],
     Ok JUndefined).
Proof. reflexivity. Qed.


(** With [force_protocol: 'wss'] the protocol is not downgraded either, but
    then nothing is sent: [https.request] refuses the protocol [wss:], and
    the request is answered with status 500. *)
Example force_protocol_wss_example :
  _parse_request_intercept_info Examples.no_URL_new Examples.parser
    Examples.gateway_wss Examples.info_core_host_mode
    Examples.request_host_mode
  = Ok Examples.info_intercept_wss
  /\ run_middleware Examples.no_URL_new Examples.gateway_wss Examples.parser
       None Examples.request_host_mode Examples.next
     = ([AEmitError TypeError; AEmitLog ERROR (MsgProcessingError TypeError);
         ASendStatus 500], Ok JUndefined).
Proof. split; reflexivity. Qed.


Lemma C3_filter_tri_state_witness :
  run_middleware Examples.no_URL_new Examples.gateway Examples.parser
    (Some Examples.filter_veto) Examples.request Examples.next
  = ([ANext []], Ok (Examples.next []))
  /\ run_middleware Examples.no_URL_new Examples.gateway Examples.parser
       (Some Examples.filter_calls_next) Examples.request Examples.next
     = ([ANext []], Ok (Examples.next []))
  /\ run_middleware Examples.no_URL_new Examples.gateway Examples.parser
       (Some Examples.filter_allows) Examples.request Examples.next
     = run_middleware Examples.no_URL_new Examples.gateway Examples.parser
         None Examples.request Examples.next.
Proof.
  split; [|split].
  - apply (proj1
             (@C3_filter_tri_state Examples.no_URL_new Examples.gateway
                Examples.parser Examples.filter_veto Examples.request
                Examples.next Examples.info_core eq_refl));
      reflexivity.
  - apply (proj1 (proj2
             (@C3_filter_tri_state Examples.no_URL_new Examples.gateway
                Examples.parser Examples.filter_calls_next Examples.request
                Examples.next Examples.info_core eq_refl))
             JUndefined [] []);
      reflexivity.
  - apply (proj2 (proj2
             (@C3_filter_tri_state Examples.no_URL_new Examples.gateway
                Examples.parser Examples.filter_allows Examples.request
                Examples.next Examples.info_core eq_refl))
             JUndefined);
      [reflexivity | discriminate | reflexivity].
Defined.

(** C4, as stated, fails: with a query that has braces and backticks, which
    a [URL] keeps as they are, the [Location] Express sends has them
    escaped, and is not the concatenation. *)
Lemma C4_redirect_counterexample :
  _parse_request_core_info Examples.no_URL_new Examples.parser_query
    Examples.gateway new_GatewayRequestInfo Examples.request_query
  = Ok Examples.info_core
  /\ _parse_request_intercept_info Examples.no_URL_new Examples.parser_query
       Examples.gateway Examples.info_core Examples.request_query
     = Ok Examples.info_intercept_query
  /\ is_gateway_intercept Examples.info_intercept_query = true
  /\ is_websocket_request Examples.info_intercept_query = false
  /\ is_gateway_host Examples.info_intercept_query = false
  /\ run_middleware Examples.no_URL_new Examples.gateway
       Examples.parser_query None Examples.request_query Examples.next
     = ([AEmitLog INFO
           (MsgRedirect
              (js "http://127.0.0.1.e058.3030.gateway-proxy.example.com/x?a={1}&b=`c`"));
         ARedirect 302
           (js "http://127.0.0.1.e058.3030.gateway-proxy.example.com/x?a=%7B1%7D&b=%60c%60")],
        Ok JUndefined)
  /\ js "http://127.0.0.1.e058.3030.gateway-proxy.example.com/x?a=%7B1%7D&b=%60c%60"
     <> url_protocol Examples.backend_query ++ js "//"
        ++ encode_hostname (js "127.0.0.1:3030") ++ js "."
        ++ gateway_subdomain Examples.gateway ++ js "." ++ js "example.com"
        ++ url_pathname Examples.backend_query
        ++ url_search Examples.backend_query.
Proof. repeat split; try reflexivity. discriminate. Qed.

Lemma C4_redirect_wire_format_witness :
  exists redirect_host url id,
    get_gateway_host Examples.gateway Examples.request = Ok redirect_host
    /\ backend_url Examples.info_intercept = UObject url
    /\ target_id Examples.info_intercept = Some id
    /\ (let redirect_path :=
          url_protocol url ++ js "//" ++ encode_hostname id ++ js "."
          ++ gateway_subdomain Examples.gateway ++ js "." ++ redirect_host
          ++ url_pathname url ++ url_search url in
        (forall location,
            encodeUrl redirect_path = Ok location ->
            run_middleware Examples.no_URL_new Examples.gateway
              Examples.parser (Some Examples.filter_allows) Examples.request
              Examples.next
            = ([AEmitLog INFO (MsgRedirect redirect_path);
                ARedirect 302 location], Ok JUndefined))
        /\ (url_plain redirect_path = true ->
            run_middleware Examples.no_URL_new Examples.gateway
              Examples.parser (Some Examples.filter_allows) Examples.request
              Examples.next
            = ([AEmitLog INFO (MsgRedirect redirect_path);
                ARedirect 302 redirect_path], Ok JUndefined))
        /\ (forall e,
              encodeUrl redirect_path = Throw e ->
              run_middleware Examples.no_URL_new Examples.gateway
                Examples.parser (Some Examples.filter_allows)
                Examples.request Examples.next
              = ([AEmitLog INFO (MsgRedirect redirect_path); AEmitError e;
                  AEmitLog ERROR (MsgProcessingError e); ASendStatus 500],
                 Ok JUndefined))).
Proof.
  apply (@C4_redirect_wire_format Examples.no_URL_new Examples.gateway
           Examples.parser (Some Examples.filter_allows) Examples.request
           Examples.next Examples.info_core Examples.info_intercept);
    reflexivity.
Defined.

Lemma C7_pass_through_safety_witness :
  (exists info,
      _parse_request_intercept_info Examples.no_URL_new Examples.parser_null
        Examples.gateway Examples.info_core Examples.request = Ok info
      /\ is_gateway_intercept info = false)
  /\ (exists trace v,
         run_middleware Examples.no_URL_new Examples.gateway
           Examples.parser_null None Examples.request Examples.next
         = (trace, Ok v)
         /\ trace <> []
         /\ forallb is_next_action trace = true
         /\ existsb is_upstream_action trace = false
         /\ (filter_proceeds None Examples.info_core Examples.request = true ->
             trace = [ANext []] /\ v = Examples.next [])).
Proof.
  apply (@C7_pass_through_safety Examples.no_URL_new Examples.gateway
           Examples.parser_null None Examples.request Examples.next
           Examples.info_core);
    reflexivity.
Defined.

Lemma C8_host_header_rewrite_witness :
  exists via options,
    create_proxy_request Examples.request_self Examples.info_intercept
      None false = Ok (via, options)
    /\ (endsWith (js "127.0.0.1:3030") (url_host Examples.backend) = true ->
        opt_headers options
        = obj_set (req_headers Examples.request_self) (js "host") HNull
        /\ obj_get (opt_headers options) (js "host") = Some HNull)
    /\ (endsWith (js "127.0.0.1:3030") (url_host Examples.backend) = false ->
        opt_headers options = req_headers Examples.request_self)
    /\ (forall key,
           key <> js "host" ->
           obj_get (opt_headers options) key
           = obj_get (req_headers Examples.request_self) key).
Proof.
  apply (@C8_host_header_rewrite Examples.request_self
           Examples.info_intercept Examples.backend (js "127.0.0.1:3030"));
    reflexivity.
Defined.

Lemma C9_websocket_path_strip_witness :
  exists url0 url,
    parser_url Examples.no_URL_new Examples.parser_ws Examples.gateway
      Examples.info_core_ws Examples.request_ws = Ok url0
    /\ backend_url Examples.info_intercept_ws = UObject url
    /\ url_pathname url0 = js "/echo/ws/.websocket"
    /\ url_pathname url = js "/echo/ws".
Proof.
  destruct (@C9_websocket_path_strip Examples.no_URL_new Examples.gateway
              Examples.parser_ws Examples.request_ws Examples.info_core_ws
              Examples.info_intercept_ws eq_refl eq_refl)
    as (url0 & url & H0 & H1 & _ & _ & _ & H & _).
  exists url0, url. split; [exact H0|]. split; [exact H1|].
  assert (url0 = Examples.backend_ws) as E by (inversion H0; reflexivity).
  split; [rewrite E; reflexivity|].
  apply H; [reflexivity | rewrite E; reflexivity | reflexivity].
Defined.

(* ================================================================== *)
(** * More on the hostname codec *)
(* ================================================================== *)

(** [decode_hostname] follows its input: it copies a unit, or replaces six
    units that match the escape pattern by one. *)
Lemma decode_hostname_rel (P : jsstring -> jsstring -> Prop) :
  P [] [] ->
  (forall c0 t0 r, P t0 r -> P (c0 :: t0) (c0 :: r)) ->
  (forall c0 c1 d1 d2 d3 c5 rest r,
      is_escape c0 c1 d1 d2 d3 c5 = true ->
      P rest r ->
      P (c0 :: c1 :: d1 :: d2 :: d3 :: c5 :: rest)
        (decode_replacer [c0; c1; d1; d2; d3; c5] ++ r)) ->
  forall h, P h (decode_hostname h).
Proof.
  intros Hnil Hcopy Hesc.
  assert (forall n h, (List.length h <= n)%nat -> P h (decode_hostname h))
    as H.
  { induction n as [|n IH]; intros [|c0 t0] Hn; try exact Hnil.
    - simpl in Hn. lia.
    - simpl in Hn. rewrite decode_hostname_cons.
      destruct t0 as [|c1 [|d1 [|d2 [|d3 [|c5 rest]]]]];
        try (apply Hcopy, IH; simpl in *; lia).
      destruct (is_escape c0 c1 d1 d2 d3 c5) eqn:E.
      + apply Hesc; [assumption|]. apply IH. simpl in *. lia.
      + apply Hcopy, IH. simpl in *. lia. }
  intros h. apply (H (List.length h)). lia.
Qed.

Lemma decode_hostname_length_le (h : jsstring) :
  (List.length (decode_hostname h) <= List.length h)%nat.
Proof.
  apply (decode_hostname_rel
           (fun h r => (List.length r <= List.length h)%nat)).
  - simpl. lia.
  - intros. simpl. lia.
  - intros. rewrite length_app, decode_replacer_length. simpl. lia.
Qed.

Lemma escape_match_free_cons (c0 : N) (t : jsstring) :
  escape_match_free (c0 :: t)
  = negb (matches_escape (c0 :: t)) && escape_match_free t.
Proof. reflexivity. Qed.

Lemma decode_hostname_no_match (c0 : N) (t0 : jsstring) :
  matches_escape (c0 :: t0) = false ->
  decode_hostname (c0 :: t0) = c0 :: decode_hostname t0.
Proof.
  intros H. apply decode_hostname_copy. intros c1 d1 d2 d3 c5 rest ->.
  exact H.
Qed.

(** Where the pattern matches somewhere, the result is shorter. *)
Lemma decode_hostname_shorter (h : jsstring) :
  escape_match_free h = false ->
  (List.length (decode_hostname h) < List.length h)%nat.
Proof.
  induction h as [|c0 t0 IH]; [discriminate|].
  rewrite escape_match_free_cons.
  destruct (matches_escape (c0 :: t0)) eqn:E; simpl negb; simpl andb.
  - intros _.
    destruct t0 as [|c1 [|d1 [|d2 [|d3 [|c5 rest]]]]]; try discriminate.
    simpl in E. rewrite decode_hostname_cons, E.
    rewrite length_app, decode_replacer_length.
    pose proof (decode_hostname_length_le rest). simpl. lia.
  - intros H. rewrite decode_hostname_no_match by assumption.
    specialize (IH H). simpl. lia.
Qed.

Lemma decode_hostname_match_free (h : jsstring) :
  escape_match_free h = true -> decode_hostname h = h.
Proof.
  induction h as [|c0 t0 IH]; [reflexivity|].
  rewrite escape_match_free_cons, andb_true_iff, negb_true_iff.
  intros [E H]. rewrite decode_hostname_no_match by assumption.
  now rewrite IH.
Qed.

(** X1: [decode_hostname] leaves a host name as it is exactly when
    [[.]e[0-9]{3}[.]] matches nowhere in it. *)
Theorem X1_decode_plain (h : jsstring) :
  decode_hostname h = h <-> escape_match_free h = true.
Proof.
  split.
  - intros Heq. destruct (escape_match_free h) eqn:E; [reflexivity|].
    apply decode_hostname_shorter in E. rewrite Heq in E. lia.
  - apply decode_hostname_match_free.
Qed.

Lemma X1_decode_plain_witness :
  decode_hostname (js "my-host.example.com") = js "my-host.example.com".
Proof.
  apply (proj2 (X1_decode_plain (js "my-host.example.com"))). reflexivity.
Defined.

(** X2: [decode_hostname] never gives more code units than it was given,
    and it gives fewer exactly when the escape pattern matches somewhere. *)
Theorem X2_decode_never_longer (h : jsstring) :
  (List.length (decode_hostname h) <= List.length h)%nat
  /\ ((List.length (decode_hostname h) < List.length h)%nat
      <-> escape_match_free h = false).
Proof.
  split; [apply decode_hostname_length_le|]. split.
  - intros Hlt. destruct (escape_match_free h) eqn:E; [|reflexivity].
    apply decode_hostname_match_free in E. rewrite E in Hlt. lia.
  - apply decode_hostname_shorter.
Qed.

Lemma X2_decode_never_longer_witness :
  (List.length (decode_hostname (js "a.e058.b")) < List.length (js "a.e058.b"))%nat.
Proof.
  apply (proj2 (proj2 (X2_decode_never_longer (js "a.e058.b")))). reflexivity.
Defined.

Lemma decode_replacer_bound (c0 c1 d1 d2 d3 c5 : N) :
  is_escape c0 c1 d1 d2 d3 c5 = true ->
  forallb (fun c => (c <=? 999)%N) (decode_replacer [c0; c1; d1; d2; d3; c5])
  = true.
Proof.
  intros H. apply is_escape_dot_digit in H.
  destruct H as (_ & _ & E1 & E2 & E3 & _).
  unfold decode_replacer. change (substr [c0; c1; d1; d2; d3; c5] 2 3)
    with [d1; d2; d3].
  unfold parseInt. rewrite E1. cbn [parseInt_acc]. rewrite E1, E2, E3.
  cbn [fromCharCode forallb]. rewrite andb_true_r. apply N.leb_le.
  unfold is_digit in E1, E2, E3.
  apply andb_true_iff in E1, E2, E3.
  rewrite !N.leb_le in E1, E2, E3.
  etransitivity; [apply N.Div0.mod_le|]. lia.
Qed.

(** Whatever it reads, [decode_hostname] writes no unit above 999 that was
    not in its input. *)
Lemma decode_units_bound (h : jsstring) :
  forallb (fun c => (c <=? 999)%N) h = true ->
  forallb (fun c => (c <=? 999)%N) (decode_hostname h) = true.
Proof.
  apply (decode_hostname_rel
           (fun h r => forallb (fun c => (c <=? 999)%N) h = true ->
                       forallb (fun c => (c <=? 999)%N) r = true)).
  - auto.
  - intros c0 t0 r IH H. simpl in *. apply andb_true_iff in H.
    destruct H as [-> H]. auto.
  - intros c0 c1 d1 d2 d3 c5 rest r E IH H.
    rewrite forallb_app, decode_replacer_bound by assumption.
    do 6 drop_head H. auto.
Qed.

Lemma is_safe_bound (c : N) : is_safe c = true -> (c <=? 999)%N = true.
Proof.
  unfold is_safe, is_word, is_digit.
  rewrite !orb_true_iff, !andb_true_iff, !N.leb_le, !N.eqb_eq. lia.
Qed.

Lemma forallb_impl {A} (f g : A -> bool) (l : list A) :
  (forall x, f x = true -> g x = true) ->
  forallb f l = true -> forallb g l = true.
Proof.
  intros Hfg. induction l as [|x l IH]; simpl; [auto|].
  rewrite !andb_true_iff. intros [Hx Hl]. auto.
Qed.

(** X3: the bound 999 of the round trip is sharp: a string with a code unit
    above 999 is never given back by [decode_hostname] after
    [encode_hostname], because the decoder writes no unit above 999. *)
Theorem X3_no_round_trip_above_999 (s : jsstring) :
  existsb (fun c => (999 <? c)%N) s = true ->
  forallb (fun c => (c <=? 999)%N) (decode_hostname (encode_hostname s)) = true
  /\ decode_hostname (encode_hostname s) <> s.
Proof.
  intros H.
  assert (forallb (fun c => (c <=? 999)%N)
            (decode_hostname (encode_hostname s)) = true) as Hb.
  { apply decode_units_bound.
    apply (forallb_impl is_safe); [apply is_safe_bound|].
    apply encode_hostname_safe. }
  split; [exact Hb|]. intros Heq. rewrite Heq in Hb.
  apply existsb_exists in H. destruct H as (c & Hin & Hc).
  rewrite forallb_forall in Hb. specialize (Hb c Hin).
  apply N.ltb_lt in Hc. apply N.leb_le in Hb. lia.
Qed.

Lemma X3_no_round_trip_above_999_witness :
  decode_hostname (encode_hostname [8364%N]) <> [8364%N].
Proof. apply (@X3_no_round_trip_above_999 [8364%N]). reflexivity. Defined.

Lemma encode_unit_length (c : N) :
  (c <=? 999)%N = true ->
  List.length (encode_unit c)
  = if is_safe c then 1%nat else 6%nat.
Proof.
  intros H. unfold encode_unit. destruct (is_safe c); [reflexivity|].
  destruct (escape_le_shape c H) as (n1 & n2 & n3 & -> & _). reflexivity.
Qed.

(** X4: [encode_hostname] works unit by unit, so it distributes over
    concatenation, and on a string of units up to 999 every escaped unit
    costs five units more: the length of the encoding is the length of the
    string plus five times the number of unsafe units. *)
Theorem X4_encode_length (a b : jsstring) :
  encode_hostname (a ++ b) = encode_hostname a ++ encode_hostname b
  /\ (forallb (fun c => (c <=? 999)%N) a = true ->
      List.length (encode_hostname a)
      = (List.length a + 5 * count_unsafe a)%nat).
Proof.
  split; [apply flat_map_app|].
  unfold count_unsafe. induction a as [|c a IH]; [reflexivity|].
  intros H. apply forallb_cons_inv in H. destruct H as [Hc Ha].
  rewrite encode_hostname_cons, length_app, encode_unit_length, IH
    by assumption.
  simpl filter. destruct (is_safe c); simpl; lia.
Qed.

Lemma X4_encode_length_witness :
  List.length (encode_hostname (js "127.0.0.1:3000")) = 19%nat.
Proof.
  apply (proj2 (@X4_encode_length (js "127.0.0.1:3000") [])). reflexivity.
Defined.

(* ================================================================== *)
(** * More on the websocket upgrade response *)
(* ================================================================== *)

Lemma header_object_lines_cases (o : Headers) (lines : list jsstring) :
  header_object_lines o lines
  = if existsb is_array_header o then Throw ReferenceError
    else Ok (lines ++ header_lines_of o).
Proof.
  revert lines. induction o as [|[k v] o IH]; intros lines.
  - simpl. now rewrite app_nil_r.
  - destruct v as [|s|[|x l]]; simpl; try reflexivity.
    + rewrite IH. destruct (existsb is_array_header o); [reflexivity|].
      unfold header_lines_of. simpl. now rewrite <- app_assoc.
    + rewrite IH. destruct (existsb is_array_header o); [reflexivity|].
      unfold header_lines_of. simpl. now rewrite <- app_assoc.
    + rewrite IH. reflexivity.
Qed.

Lemma create_header_cases (status : jsstring) (o : Headers) :
  create_websocket_socket_header [ArgString status; ArgObject o]
  = if existsb is_array_header o then Throw ReferenceError
    else Ok (join CRLF (status :: header_lines_of o) ++ CRLF ++ CRLF).
Proof.
  unfold create_websocket_socket_header.
  change (header_lines [ArgString status; ArgObject o] [])
    with (rbind (header_object_lines o [status]) (header_lines [])).
  rewrite header_object_lines_cases.
  destruct (existsb is_array_header o); reflexivity.
Qed.

(** X5: the upgrade response is built exactly when no upstream header is an
    array with an element: it is then the status line and one line per
    header (none for an empty array), each ended by CRLF, and a blank line.
    The [upgrade] listener then does, in this order and nothing else: the
    error listener of the upstream socket, the unshift of a head that is
    not empty, the two close listeners, the set up of the upstream socket,
    one write of the response to the client, the splice.  With such an
    array header the builder throws a ReferenceError, and the listener
    stops with it after the set up of the upstream socket: it neither
    writes nor splices. *)
Theorem X5_upgrade_response (status : jsstring) (o : Headers)
    (proxy_head : option jsstring) :
  (existsb is_array_header o = false ->
   create_websocket_socket_header [ArgString status; ArgObject o]
   = Ok (join CRLF (status :: header_lines_of o) ++ CRLF ++ CRLF)
   /\ on_upgrade o proxy_head
      = (upgrade_set_up proxy_head
         ++ [ClientWrite
               (join CRLF
                  (js "HTTP/1.1 101 Switching Protocols" :: header_lines_of o)
                ++ CRLF ++ CRLF);
             Splice], None))
  /\ (existsb is_array_header o = true ->
      create_websocket_socket_header [ArgString status; ArgObject o]
      = Throw ReferenceError
      /\ on_upgrade o proxy_head
         = (upgrade_set_up proxy_head, Some ReferenceError)).
Proof.
  split; intros H.
  - split; [now rewrite create_header_cases, H|].
    unfold on_upgrade. rewrite create_header_cases, H.
    destruct proxy_head as [[|c h]|]; reflexivity.
  - split; [now rewrite create_header_cases, H|].
    unfold on_upgrade. rewrite create_header_cases, H.
    destruct proxy_head as [[|c h]|]; reflexivity.
Qed.

Lemma X5_upgrade_response_witness :
  on_upgrade [(js "upgrade", HStr (js "websocket")); (js "vary", HArr [])]
    (Some (js "x"))
  = ([ProxyOnError; ProxyUnshift (js "x"); ProxyOnClose; ClientOnClose;
      ProxySocketSetup;
      ClientWrite (js "HTTP/1.1 101 Switching Protocols" ++ CRLF
                   ++ js "upgrade: websocket" ++ CRLF ++ CRLF);
      Splice], None)
  /\ on_upgrade [(js "set-cookie", HArr [js "a=1"])] None
     = ([ProxyOnError; ProxyOnClose; ClientOnClose; ProxySocketSetup],
        Some ReferenceError).
Proof.
  split.
  - apply (proj1 (@X5_upgrade_response []
                    [(js "upgrade", HStr (js "websocket"));
                     (js "vary", HArr [])] (Some (js "x")))).
    reflexivity.
  - apply (proj2 (@X5_upgrade_response [] [(js "set-cookie", HArr [js "a=1"])]
                    None)).
    reflexivity.
Defined.

(* ================================================================== *)
(** * Errors of the upstream request: facts *)
(* ================================================================== *)

Lemma map_dns_status_range (v : jsval) :
  map_dns_status_to_http_code v = 403%N
  \/ map_dns_status_to_http_code v = 404%N
  \/ map_dns_status_to_http_code v = 500%N.
Proof.
  unfold map_dns_status_to_http_code.
  repeat match goal with |- context [if ?b then _ else _] => destruct b end;
    auto.
Qed.

Lemma strict_eq_JStr (v : jsval) (s : jsstring) :
  strict_eq v (JStr s) = true <-> v = JStr s.
Proof.
  destruct v; simpl; try (split; [discriminate | congruence]).
  rewrite str_eqb_eq. split; congruence.
Qed.

Lemma original_code_is (err : ProxyError) (s : jsstring) :
  s <> [] -> s <> js "[unknown]" ->
  original_code err = JStr s <-> err_code err = JStr s.
Proof.
  intros Hs Hu. unfold original_code.
  destruct (truthy (err_code err)) eqn:Ht; [tauto|].
  split.
  - intros H. inversion H. congruence.
  - intros H. rewrite H in Ht. destruct s; [congruence | discriminate].
Qed.

(** X6: [_handle_proxy_request_error] answers once, and does nothing but
    log and answer.  The status is 404 exactly for the code [ENOTFOUND],
    403 exactly for [EREFUSED], [ECANCELLED] and [ECONNREFUSED], and 500
    otherwise, so for an error without a code.  When the status is not 500,
    the answer is all the handler does; when it is 500, it is one log entry
    at level ERROR and then the answer.  The answer is
    [res.sendStatus(status)] for a websocket request, and otherwise
    [next(err)], with [err.code] and [err.statusCode] set to the status,
    [err.originalCode] to the code the error came with ([[unknown]] when it
    had none) and the message untouched. *)
Theorem X6_handle_proxy_request_error (err : ProxyError)
    (info : GatewayRequestInfo) :
  let status := map_dns_status_to_http_code (original_code err) in
  let answer :=
    if is_websocket_request info then ErrSendStatus status
    else ErrNext (mkProxyError (JNum (Z.of_N status)) (err_message err)
                    (JNum (Z.of_N status)) (original_code err)) in
  (status = 404%N <-> err_code err = JStr (js "ENOTFOUND"))
  /\ (status = 403%N
      <-> In (err_code err)
            [JStr (js "EREFUSED"); JStr (js "ECANCELLED");
             JStr (js "ECONNREFUSED")])
  /\ (status <> 404%N -> status <> 403%N -> status = 500%N)
  /\ (status <> 500%N -> _handle_proxy_request_error err info = [answer])
  /\ (status = 500%N ->
      _handle_proxy_request_error err info
      = [ErrEmitLog ERROR 500 (err_message err); answer])
  /\ (truthy (err_code err) = false ->
      original_code err = JStr (js "[unknown]")
      /\ _handle_proxy_request_error err info
         = [ErrEmitLog ERROR 500 (err_message err);
            if is_websocket_request info then ErrSendStatus 500
            else ErrNext (mkProxyError (JNum 500) (err_message err)
                            (JNum 500) (JStr (js "[unknown]")))]).
Proof.
  cbv zeta.
  assert (truthy (err_code err) = false ->
          original_code err = JStr (js "[unknown]")) as Hu
    by (intros Ht; unfold original_code; now rewrite Ht).
  assert (forall s, s <> [] -> s <> js "[unknown]" ->
            strict_eq (original_code err) (JStr s) = true
            <-> err_code err = JStr s) as Hc.
  { intros s Hs Hn. rewrite strict_eq_JStr. now apply original_code_is. }
  pose proof (Hc (js "ENOTFOUND") ltac:(discriminate) ltac:(discriminate))
    as H1.
  pose proof (Hc (js "EREFUSED") ltac:(discriminate) ltac:(discriminate))
    as H2.
  pose proof (Hc (js "ECANCELLED") ltac:(discriminate) ltac:(discriminate))
    as H3.
  pose proof (Hc (js "ECONNREFUSED") ltac:(discriminate) ltac:(discriminate))
    as H4.
  clear Hc.
  assert ((map_dns_status_to_http_code (original_code err) = 404%N
           <-> err_code err = JStr (js "ENOTFOUND"))
          /\ (map_dns_status_to_http_code (original_code err) = 403%N
              <-> In (err_code err)
                    [JStr (js "EREFUSED"); JStr (js "ECANCELLED");
                     JStr (js "ECONNREFUSED")])) as [F1 F2].
  { unfold map_dns_status_to_http_code.
    change dns.NOTFOUND with (JStr (js "ENOTFOUND")).
    change dns.REFUSED with (JStr (js "EREFUSED")).
    change dns.CANCELLED with (JStr (js "ECANCELLED")).
    change dns.CONNREFUSED with (JStr (js "ECONNREFUSED")).
    destruct (strict_eq (original_code err) (JStr (js "ENOTFOUND"))) eqn:E1.
    { rewrite (proj1 H1 eq_refl). split; [tauto|].
      split; [discriminate|].
      intros [H | [H | [H | []]]]; cbv in H; discriminate. }
    assert (err_code err <> JStr (js "ENOTFOUND")) as N1
      by (intros E; apply H1 in E; discriminate).
    destruct (strict_eq (original_code err) (JStr (js "EREFUSED"))) eqn:E2.
    { split; [split; [discriminate | contradiction]|].
      split; [|reflexivity]. intros _. left. symmetry. now apply H2. }
    assert (err_code err <> JStr (js "EREFUSED")) as N2
      by (intros E; apply H2 in E; discriminate).
    destruct (strict_eq (original_code err) (JStr (js "ECANCELLED"))) eqn:E3.
    { split; [split; [discriminate | contradiction]|].
      split; [|reflexivity]. intros _. right. left. symmetry.
      now apply H3. }
    assert (err_code err <> JStr (js "ECANCELLED")) as N3
      by (intros E; apply H3 in E; discriminate).
    destruct (strict_eq (original_code err) (JStr (js "ECONNREFUSED")))
      eqn:E4.
    { split; [split; [discriminate | contradiction]|].
      split; [|reflexivity]. intros _. right. right. left. symmetry.
      now apply H4. }
    assert (err_code err <> JStr (js "ECONNREFUSED")) as N4
      by (intros E; apply H4 in E; discriminate).
    split; [split; [discriminate | contradiction]|].
    split; [discriminate|].
    intros [H | [H | [H | []]]]; congruence. }
  split; [exact F1|]. split; [exact F2|].
  pose proof (map_dns_status_range (original_code err)) as Hr.
  split; [intros; destruct Hr as [Hr | [Hr | Hr]]; congruence|].
  unfold _handle_proxy_request_error.
  split; [|split].
  - intros Hs. apply N.eqb_neq in Hs. rewrite Hs.
    destruct (is_websocket_request info); reflexivity.
  - intros Hs. rewrite Hs.
    destruct (is_websocket_request info); reflexivity.
  - intros Ht. split; [now apply Hu|].
    rewrite (Hu Ht).
    destruct (is_websocket_request info); reflexivity.
Qed.

Lemma X6_handle_proxy_request_error_witness :
  _handle_proxy_request_error
    (mkProxyError (JStr (js "ENOTFOUND"))
       (JStr (js "getaddrinfo ENOTFOUND")) JUndefined JUndefined)
    new_GatewayRequestInfo
  = [ErrNext (mkProxyError (JNum 404) (JStr (js "getaddrinfo ENOTFOUND"))
                (JNum 404) (JStr (js "ENOTFOUND")))]
  /\ _handle_proxy_request_error
       (mkProxyError JUndefined (JStr (js "socket hang up")) JUndefined
          JUndefined)
       new_GatewayRequestInfo
     = [ErrEmitLog ERROR 500 (JStr (js "socket hang up"));
        ErrNext (mkProxyError (JNum 500) (JStr (js "socket hang up"))
                   (JNum 500) (JStr (js "[unknown]")))].
Proof.
  split.
  - pose proof (@X6_handle_proxy_request_error
                  (mkProxyError (JStr (js "ENOTFOUND"))
                     (JStr (js "getaddrinfo ENOTFOUND")) JUndefined JUndefined)
                  new_GatewayRequestInfo) as H.
    cbv zeta in H. destruct H as (_ & _ & _ & H & _).
    apply H. discriminate.
  - pose proof (@X6_handle_proxy_request_error
                  (mkProxyError JUndefined (JStr (js "socket hang up"))
                     JUndefined JUndefined)
                  new_GatewayRequestInfo) as H.
    cbv zeta in H. destruct H as (_ & _ & _ & _ & _ & H).
    exact (proj2 (H eq_refl)).
Defined.

(* ================================================================== *)
(** * More on strings *)
(* ================================================================== *)

Lemma startsWith_app (p b : jsstring) : startsWith (p ++ b) p = true.
Proof.
  induction p as [|y p IH]; simpl; [now destruct b|].
  now rewrite N.eqb_refl, IH.
Qed.

Lemma startsWith_split (s p : jsstring) :
  startsWith s p = true -> s = p ++ skipn (List.length p) s.
Proof.
  revert s. induction p as [|y p IH]; intros s H; [reflexivity|].
  destruct s as [|x s]; [discriminate|]. simpl in H.
  apply andb_true_iff in H. destruct H as [Hx Hs].
  apply N.eqb_eq in Hx. subst y. simpl. f_equal. now apply IH.
Qed.

(** [lastIndexOf] gives -1 when the pattern starts nowhere, and otherwise a
    place where it starts. *)
Lemma lastIndexOf_from_spec (p s : jsstring) (i found : Z) :
  (lastIndexOf_from s p i found = found
   /\ forall k, (k <= List.length s)%nat -> startsWith (skipn k s) p = false)
  \/ (exists k, (k <= List.length s)%nat
                /\ lastIndexOf_from s p i found = (i + Z.of_nat k)%Z
                /\ startsWith (skipn k s) p = true).
Proof.
  revert i found. induction s as [|c s IH]; intros i found.
  - destruct p as [|y p].
    + right. exists 0%nat. repeat split; simpl; lia.
    + left. split; [reflexivity|]. intros k Hk. simpl in Hk.
      replace k with 0%nat by lia. reflexivity.
  - change (lastIndexOf_from (c :: s) p i found)
      with (lastIndexOf_from s p (i + 1)
              (if startsWith (c :: s) p then i else found)).
    destruct (IH (i + 1)%Z (if startsWith (c :: s) p then i else found))
      as [[Hr Hno] | (k & Hk & Hr & Hs)].
    + destruct (startsWith (c :: s) p) eqn:E.
      * right. exists 0%nat. split; [lia|].
        split; [rewrite Hr; simpl; lia | exact E].
      * left. split; [exact Hr|]. intros [|k] Hk; [exact E|].
        simpl. apply Hno. simpl in Hk. lia.
    + right. exists (S k). split; [simpl; lia|].
      split; [rewrite Hr; lia | exact Hs].
Qed.

Lemma occurs_in_startsWith (p s : jsstring) :
  occurs_in p s
  <-> exists k, (k <= List.length s)%nat /\ startsWith (skipn k s) p = true.
Proof.
  split.
  - intros (a & b & ->). exists (List.length a).
    rewrite length_app. split; [lia|].
    rewrite skipn_app, skipn_all, Nat.sub_diag. simpl.
    apply startsWith_app.
  - intros (k & _ & H). apply startsWith_split in H.
    exists (firstn k s), (skipn (List.length p) (skipn k s)).
    rewrite <- H. symmetry. apply firstn_skipn.
Qed.

Lemma endsWith_longer (s p : jsstring) :
  (List.length s < List.length p)%nat -> endsWith s p = false.
Proof.
  intros H. unfold endsWith.
  destruct (List.length p <=? List.length s)%nat eqn:E; [|reflexivity].
  apply Nat.leb_le in E. lia.
Qed.

Lemma existsb_app_false {A} (f : A -> bool) (l l' : list A) :
  existsb f l = false -> existsb f l' = false -> existsb f (l ++ l') = false.
Proof. intros H H'. now rewrite existsb_app, H, H'. Qed.

Lemma obj_get_not_in (o : Headers) (key : jsstring) :
  ~ In key (List.map fst o) -> obj_get o key = None.
Proof.
  induction o as [|[k v] o IH]; [reflexivity|]. simpl. intros H.
  destruct (str_eqb k key) eqn:E.
  - apply str_eqb_eq in E. tauto.
  - apply IH. tauto.
Qed.

(** A key of [{...a, ...b}] has the value [b] gives it, and the value of [a]
    when [b] does not have it. *)
Lemma obj_get_spread (a b : Headers) (key : jsstring) :
  NoDup (List.map fst b) ->
  obj_get (obj_spread a b) key
  = match obj_get b key with
    | Some v => Some v
    | None => obj_get a key
    end.
Proof.
  unfold obj_spread. revert a. induction b as [|[k v] b IH]; intros a Hnd;
    [reflexivity|].
  simpl in Hnd. inversion Hnd as [|? ? Hk Hb]. subst.
  simpl fold_left. rewrite IH by assumption. simpl obj_get.
  destruct (str_eqb k key) eqn:E.
  - apply str_eqb_eq in E. subst key.
    rewrite (obj_get_not_in b k Hk). apply obj_get_set_same.
  - destruct (obj_get b key); [reflexivity|].
    apply obj_get_set_other. apply str_eqb_neq in E. congruence.
Qed.

(* ================================================================== *)
(** * More on the upstream request *)
(* ================================================================== *)

(** X7: headers given to [create_proxy_request] win over the request's own:
    every forwarded header but [host] has the value the given headers have
    for it, else the request's value, or none at all when the request's
    headers are overridden. *)
Theorem X7_given_headers_win (req : Request) (info : GatewayRequestInfo)
    (url : URL) (headers : Headers) (override_headers : bool)
    (host : jsstring) :
  backend_url info = UObject url ->
  NoDup (List.map fst headers) ->
  host_or_empty
    (obj_spread (if override_headers then [] else req_headers req) headers)
  = Ok host ->
  exists via options,
    create_proxy_request req info (Some headers) override_headers
    = Ok (via, options)
    /\ forall key,
         key <> js "host" ->
         obj_get (opt_headers options) key
         = match obj_get headers key with
           | Some v => Some v
           | None => if override_headers then None
                     else obj_get (req_headers req) key
           end.
Proof.
  intros Hb Hnd Hh. unfold create_proxy_request, info_url.
  rewrite Hb. cbn [rbind]. rewrite Hh. cbn [rbind].
  eexists _, _. split; [reflexivity|]. intros key Hk.
  cbn [opt_headers].
  assert (obj_get
            (obj_spread (if override_headers then [] else req_headers req)
               headers) key
          = match obj_get headers key with
            | Some v => Some v
            | None => if override_headers then None
                      else obj_get (req_headers req) key
            end) as Hg.
  { rewrite obj_get_spread by assumption.
    destruct (obj_get headers key); [reflexivity|].
    now destruct override_headers. }
  destruct (endsWith host (url_host url)); [|exact Hg].
  rewrite obj_get_set_other by assumption. exact Hg.
Qed.

Lemma X7_given_headers_win_witness :
  exists via options,
    create_proxy_request Examples.request Examples.info_intercept
      (Some [(js "accept", HStr (js "text/html"))]) false
    = Ok (via, options)
    /\ forall key,
         key <> js "host" ->
         obj_get (opt_headers options) key
         = match obj_get [(js "accept", HStr (js "text/html"))] key with
           | Some v => Some v
           | None => obj_get (req_headers Examples.request) key
           end.
Proof.
  apply (@X7_given_headers_win Examples.request Examples.info_intercept
           Examples.backend [(js "accept", HStr (js "text/html"))] false
           (js "example.com")).
  - reflexivity.
  - repeat constructor. simpl. tauto.
  - reflexivity.
Defined.

(* ================================================================== *)
(** * More on the classifier and the middleware *)
(* ================================================================== *)

Section MiddlewareMore.

Variable URL_new : jsstring -> result URL.

Lemma host_or_empty_of_host (req : Request) (h : jsstring) :
  req_get_host req = Ok h -> host_or_empty (req_headers req) = Ok h.
Proof.
  unfold req_get_host, host_or_empty.
  destruct (obj_get (req_headers req) (js "host")) as [[|s|l]|];
    try discriminate.
  intros H. inversion H. subst. now destruct h.
Qed.

Lemma create_proxy_request_ok (req : Request) (info : GatewayRequestInfo)
    (url : URL) (h : jsstring) :
  backend_url info = UObject url ->
  req_get_host req = Ok h ->
  exists via options,
    create_proxy_request req info None false = Ok (via, options).
Proof.
  intros Hb Hh. unfold create_proxy_request, info_url. rewrite Hb.
  cbn [rbind]. unfold obj_spread. cbn [fold_left].
  rewrite (host_or_empty_of_host _ Hh). cbn [rbind].
  eexists _, _. reflexivity.
Qed.

(** The two outcomes of the second phase. *)
Lemma intercept_info_cases (parser : GatewayBackendParser) (gateway : Gateway)
    (info info' : GatewayRequestInfo) (req : Request) :
  _parse_request_intercept_info URL_new parser gateway info req = Ok info' ->
  info' = mkInfo false (is_gateway_host info) (is_websocket_request info)
            (target_id info) (gateway_domain_postfix info)
            (target_method info) UNull
  \/ exists url method id,
       info' = mkInfo true (is_gateway_host info) (is_websocket_request info)
                 (Some id) (gateway_domain_postfix info) (Some method)
                 (UObject url).
Proof.
  intros H. destruct (is_gateway_intercept info') eqn:Hi.
  - right. destruct (intercept_info_inv _ _ _ _ _ H Hi)
      as (url & m & p & _ & _ & _ & ->).
    eexists _, _, _. reflexivity.
  - left. unfold _parse_request_intercept_info in H.
    apply rbind_Ok in H. destruct H as (v & _ & H).
    destruct v as [|u|s].
    + inversion H. reflexivity.
    + apply rbind_Ok in H. destruct H as (url & _ & H).
      apply rbind_Ok in H. destruct H as (m & _ & H).
      apply rbind_Ok in H. destruct H as (p & _ & H).
      inversion H. subst info'. discriminate.
    + apply rbind_Ok in H. destruct H as (url & _ & H).
      apply rbind_Ok in H. destruct H as (m & _ & H).
      apply rbind_Ok in H. destruct H as (p & _ & H).
      inversion H. subst info'. discriminate.
Qed.

Lemma intercept_info_flags (parser : GatewayBackendParser)
    (gateway : Gateway) (info info' : GatewayRequestInfo) (req : Request) :
  _parse_request_intercept_info URL_new parser gateway info req = Ok info' ->
  is_gateway_host info' = is_gateway_host info
  /\ is_websocket_request info' = is_websocket_request info.
Proof.
  intros H.
  destruct (intercept_info_cases _ _ _ _ H) as [-> | (url & m & id & ->)];
    split; reflexivity.
Qed.

(** X8: the second phase never touches [is_gateway_host],
    [is_websocket_request] and [gateway_domain_postfix]; when it decides to
    intercept, [backend_url] is a [URL] object and [target_method] and
    [target_id] are set; when it does not, [backend_url] is [null] and
    [target_id] and [target_method] are as they were. *)
Theorem X8_intercept_invariant (parser : GatewayBackendParser)
    (gateway : Gateway) (info info' : GatewayRequestInfo) (req : Request) :
  _parse_request_intercept_info URL_new parser gateway info req = Ok info' ->
  is_gateway_host info' = is_gateway_host info
  /\ is_websocket_request info' = is_websocket_request info
  /\ gateway_domain_postfix info' = gateway_domain_postfix info
  /\ (is_gateway_intercept info' = true ->
      exists url method id,
        backend_url info' = UObject url
        /\ target_method info' = Some method
        /\ target_id info' = Some id)
  /\ (is_gateway_intercept info' = false ->
      backend_url info' = UNull
      /\ target_id info' = target_id info
      /\ target_method info' = target_method info).
Proof.
  intros H.
  destruct (intercept_info_cases _ _ _ _ H) as [-> | (url & m & id & ->)];
    cbn; repeat split; try discriminate.
  intros _. exists url, m, id. auto.
Qed.


(** The middleware, case by case. *)
Lemma dispatch_cases (parser : GatewayBackendParser) (gateway : Gateway)
    (info : GatewayRequestInfo) (req : Request) (next : list jsval -> jsval) :
  dispatch URL_new parser gateway info req next
  = match _parse_request_intercept_info URL_new parser gateway info req with
    | Throw e => ([], Throw e)
    | Ok info' =>
        if negb (is_gateway_intercept info') then ([ANext []], Ok (next []))
        else if is_websocket_request info' then
          (AEmitLog INFO
             (MsgStartingWebsocket (req_originalUrl req) (backend_url info'))
           :: AClientSocketSetup
           :: match proxy_request_made req info' with
              | Ok r => [AUpstreamRequest (fst r) (snd r); APipeRequestBody]
              | Throw e => [AEmitError e; AEmitLog ERROR MsgWebsocketSetupError]
              end,
           Ok JUndefined)
        else if negb (is_gateway_host info') then
          match get_gateway_host_redirect gateway req info' with
          | Ok p =>
              match encodeUrl p with
              | Ok location =>
                  ([AEmitLog INFO (MsgRedirect p); ARedirect 302 location],
                   Ok JUndefined)
              | Throw e => ([AEmitLog INFO (MsgRedirect p)], Throw e)
              end
          | Throw e => ([], Throw e)
          end
        else
          match proxy_request_made req info' with
          | Ok r => ([AUpstreamRequest (fst r) (snd r); APipeRequestBody],
                     Ok JUndefined)
          | Throw e => ([], Throw e)
          end
    end.
Proof.
  unfold dispatch, create_websocket_proxy, send_proxy_request,
    proxy_request_made, res_redirect.
  destruct (_parse_request_intercept_info URL_new parser gateway info req)
    as [info'|e]; [|reflexivity].
  cbn [lift mbind app].
  destruct (is_gateway_intercept info'); cbn [negb]; [|reflexivity].
  destruct (is_websocket_request info').
  - destruct (create_proxy_request req info' None false) as [r|e];
      [|reflexivity].
    cbn [rbind]. destruct (http_request (fst r) (snd r)) as [[]|e];
      reflexivity.
  - destruct (is_gateway_host info'); cbn [negb].
    + destruct (create_proxy_request req info' None false) as [r|e];
        [|reflexivity].
      cbn [rbind]. destruct (http_request (fst r) (snd r)) as [[]|e];
        reflexivity.
    + destruct (get_gateway_host_redirect gateway req info') as [p|e];
        [|reflexivity].
      destruct (encodeUrl p) as [location|e]; reflexivity.
Qed.

Lemma run_middleware_cases (gateway : Gateway) (parser : GatewayBackendParser)
    (request_filter : option GatewayRequestFilter) (req : Request)
    (next : list jsval -> jsval) :
  run_middleware URL_new gateway parser request_filter req next
  = match _parse_request_core_info URL_new parser gateway
            new_GatewayRequestInfo req with
    | Throw e => answer_500 e
    | Ok info =>
        match request_filter with
        | None =>
            try_catch (dispatch URL_new parser gateway info req next)
              answer_500
        | Some f =>
            match outcome (f info req) with
            | Throw e =>
                (List.map ANext (next_calls (f info req)) ++ fst (answer_500 e),
                 Ok JUndefined)
            | Ok v =>
                match next_calls (f info req) with
                | [] =>
                    if strict_eq_false v then ([ANext []], Ok (next []))
                    else try_catch (dispatch URL_new parser gateway info req
                                      next) answer_500
                | c :: cs =>
                    (List.map ANext (c :: cs), Ok (next (last cs c)))
                end
            end
        end
    end.
Proof.
  unfold run_middleware.
  destruct (_parse_request_core_info URL_new parser gateway
              new_GatewayRequestInfo req) as [info|e]; [|reflexivity].
  cbv beta iota delta [lift mbind mret tell].
  remember (dispatch URL_new parser gateway info req next) as d eqn:Ed.
  destruct request_filter as [f|].
  - destruct (outcome (f info req)) as [v|e].
    + destruct (next_calls (f info req)) as [|c cs].
      * cbn [List.map app negb orb].
        destruct (strict_eq_false v); [reflexivity|].
        destruct d as [t [a|e]]; reflexivity.
      * cbn [List.map app negb orb]. rewrite orb_true_r.
        cbn. now rewrite app_nil_r.
    + cbn. now rewrite app_nil_r.
  - destruct d as [t [a|e]]; reflexivity.
Qed.

(** X10: a request without a [host] header is answered with status 500: the
    error is emitted and logged, the filter is not asked, [next] is not
    called and nothing is sent upstream. *)
Theorem X10_no_host_header (gateway : Gateway) (parser : GatewayBackendParser)
    (request_filter : option GatewayRequestFilter) (req : Request)
    (next : list jsval -> jsval) :
  obj_get (req_headers req) (js "host") = None ->
  run_middleware URL_new gateway parser request_filter req next
  = ([AEmitError TypeError; AEmitLog ERROR (MsgProcessingError TypeError);
      ASendStatus 500], Ok JUndefined).
Proof.
  intros H. rewrite run_middleware_cases.
  assert (_parse_request_core_info URL_new parser gateway
            new_GatewayRequestInfo req = Throw TypeError) as ->.
  { unfold _parse_request_core_info, get_gateway_host, req_get_host.
    rewrite H. now destruct (gateway_host gateway). }
  reflexivity.
Qed.


Lemma existsb_map_ANext_redirect (calls : list (list jsval)) :
  existsb is_redirect_action (List.map ANext calls) = false.
Proof. induction calls; simpl; auto. Qed.

(** A request to a gateway host, and a websocket request, are not
    redirected by the dispatch. *)
Lemma dispatch_never (parser : GatewayBackendParser) (gateway : Gateway)
    (info : GatewayRequestInfo) (req : Request) (next : list jsval -> jsval) :
  is_gateway_host info = true \/ is_websocket_request info = true ->
  existsb is_redirect_action
    (fst (try_catch (dispatch URL_new parser gateway info req next)
            answer_500)) = false.
Proof.
  intros Hor. rewrite dispatch_cases.
  destruct (_parse_request_intercept_info URL_new parser gateway info req)
    as [info'|e] eqn:H2; [|reflexivity].
  destruct (intercept_info_flags _ _ _ _ H2) as (Hh & Hw).
  rewrite Hh, Hw.
  destruct (is_gateway_intercept info'); cbn [negb]; [|reflexivity].
  destruct (is_websocket_request info).
  - destruct (proxy_request_made req info') as [r|e]; reflexivity.
  - destruct Hor as [-> | Hor]; [|discriminate]. cbn [negb].
    destruct (proxy_request_made req info') as [r|e]; reflexivity.
Qed.

Lemma no_redirect_for (gateway : Gateway) (parser : GatewayBackendParser)
    (request_filter : option GatewayRequestFilter) (req : Request)
    (next : list jsval -> jsval) (info : GatewayRequestInfo) :
  _parse_request_core_info URL_new parser gateway new_GatewayRequestInfo req
  = Ok info ->
  is_gateway_host info = true \/ is_websocket_request info = true ->
  existsb is_redirect_action
    (fst (run_middleware URL_new gateway parser request_filter req next))
  = false.
Proof.
  intros H1 Hor. rewrite run_middleware_cases, H1.
  pose proof (dispatch_never parser gateway info req next Hor) as Hd.
  destruct request_filter as [f|]; [|exact Hd].
  destruct (outcome (f info req)) as [v|e].
  - destruct (next_calls (f info req)) as [|c cs].
    + destruct (strict_eq_false v); [reflexivity | exact Hd].
    + cbn [fst]. apply existsb_map_ANext_redirect.
  - cbn [fst]. rewrite existsb_app, existsb_map_ANext_redirect. reflexivity.
Qed.

(** X13: a request addressed to a gateway host, and a websocket request,
    are never answered by a redirect. *)
Theorem X13_no_redirect (gateway : Gateway) (parser : GatewayBackendParser)
    (request_filter : option GatewayRequestFilter) (req : Request)
    (next : list jsval -> jsval) (info : GatewayRequestInfo) :
  _parse_request_core_info URL_new parser gateway new_GatewayRequestInfo req
  = Ok info ->
  is_gateway_host info = true \/ is_websocket_request info = true ->
  existsb is_redirect_action
    (fst (run_middleware URL_new gateway parser request_filter req next))
  = false.
Proof. apply no_redirect_for. Qed.

(** A request that [http.request] or [https.request] takes has no protocol,
    or the one of the module called. *)
Lemma http_request_protocol (via : transport) (options : RequestOptions) :
  http_request via options = Ok tt ->
  opt_protocol options = []
  \/ opt_protocol options
     = match via with
       | PlainHttp => js "http:"
       | Tls => js "https:"
       end.
Proof.
  unfold http_request. intros H.
  destruct (opt_protocol options) as [|c p]; [now left|]. right.
  destruct (str_eqb (c :: p)
              match via with
              | PlainHttp => js "http:"
              | Tls => js "https:"
              end) eqn:E.
  - now apply str_eqb_eq in E.
  - rewrite andb_false_r in H. discriminate.
Qed.

(** X14: for an intercepted request that the filter let through,
    [create_proxy_request] gives the options of the upstream request, with
    the protocol of [backend_url], and the request goes through
    [https.request] exactly for [https:] and [wss:].  When Node takes the
    options, the request is sent upstream: a websocket request after the
    log entry and the set up of the client socket, whether or not it came
    to a gateway host; any other request that came to a gateway host at
    once; in both cases the request body is piped.  When Node refuses them,
    as it always does for the protocols [ws:] and [wss:], nothing is sent:
    a websocket request is left without an answer, after the error was
    emitted and logged; any other request that came to a gateway host is
    answered with status 500.  The handler returns [undefined] in all
    cases. *)
Theorem X14_upstream_dispatch (gateway : Gateway)
    (parser : GatewayBackendParser)
    (request_filter : option GatewayRequestFilter)
    (req : Request) (next : list jsval -> jsval)
    (info0 info : GatewayRequestInfo) :
  _parse_request_core_info URL_new parser gateway new_GatewayRequestInfo req
  = Ok info0 ->
  filter_proceeds request_filter info0 req = true ->
  _parse_request_intercept_info URL_new parser gateway info0 req = Ok info ->
  is_gateway_intercept info = true ->
  exists url via options,
    backend_url info = UObject url
    /\ create_proxy_request req info None false = Ok (via, options)
    /\ opt_protocol options = url_protocol url
    /\ (via = Tls <-> In (url_protocol url) [js "wss:"; js "https:"])
    /\ (In (url_protocol url) [js "ws:"; js "wss:"] ->
        http_request via options = Throw TypeError)
    /\ (http_request via options = Ok tt ->
        (is_websocket_request info = true ->
         run_middleware URL_new gateway parser request_filter req next
         = ([AEmitLog INFO
               (MsgStartingWebsocket (req_originalUrl req)
                  (backend_url info));
             AClientSocketSetup; AUpstreamRequest via options;
             APipeRequestBody], Ok JUndefined))
        /\ (is_websocket_request info = false ->
            is_gateway_host info = true ->
            run_middleware URL_new gateway parser request_filter req next
            = ([AUpstreamRequest via options; APipeRequestBody],
               Ok JUndefined)))
    /\ (forall e,
          http_request via options = Throw e ->
          (is_websocket_request info = true ->
           run_middleware URL_new gateway parser request_filter req next
           = ([AEmitLog INFO
                 (MsgStartingWebsocket (req_originalUrl req)
                    (backend_url info));
               AClientSocketSetup; AEmitError e;
               AEmitLog ERROR MsgWebsocketSetupError], Ok JUndefined))
          /\ (is_websocket_request info = false ->
              is_gateway_host info = true ->
              run_middleware URL_new gateway parser request_filter req next
              = ([AEmitError e; AEmitLog ERROR (MsgProcessingError e);
                  ASendStatus 500], Ok JUndefined))).
Proof.
  intros H1 Hf H2 Hi.
  destruct (core_info_inv _ _ _ _ _ H1) as (gh & h & _ & Hh & _).
  destruct (intercept_info_cases _ _ _ _ H2) as [E | (url & m & id & E)];
    [rewrite E in Hi; discriminate|].
  assert (backend_url info = UObject url) as Hb by (rewrite E; reflexivity).
  destruct (@create_proxy_request_ok req info url h) as (via & options & Hc);
    [exact Hb | assumption |].
  assert (opt_protocol options = url_protocol url
          /\ via = (if str_eqb (url_protocol url) (js "wss:") then Tls
                    else if str_eqb (url_protocol url) (js "https:") then Tls
                    else PlainHttp)) as [Hp Hv].
  { unfold create_proxy_request, info_url in Hc. rewrite Hb in Hc.
    simpl in Hc. apply rbind_Ok in Hc. destruct Hc as (h' & _ & Hc).
    destruct (str_eqb (url_protocol url) (js "wss:"));
      [|destruct (str_eqb (url_protocol url) (js "https:"))];
      inversion Hc; split; reflexivity. }
  exists url, via, options.
  split; [exact Hb|]. split; [exact Hc|]. split; [exact Hp|].
  assert (forall r,
            proxy_request_made req info = r ->
            run_middleware URL_new gateway parser request_filter req next
            = if is_websocket_request info then
                (AEmitLog INFO
                   (MsgStartingWebsocket (req_originalUrl req)
                      (backend_url info))
                 :: AClientSocketSetup
                 :: match r with
                    | Ok r => [AUpstreamRequest (fst r) (snd r);
                               APipeRequestBody]
                    | Throw e => [AEmitError e;
                                  AEmitLog ERROR MsgWebsocketSetupError]
                    end, Ok JUndefined)
              else if is_gateway_host info then
                match r with
                | Ok r => ([AUpstreamRequest (fst r) (snd r);
                            APipeRequestBody], Ok JUndefined)
                | Throw e => answer_500 e
                end
              else run_middleware URL_new gateway parser request_filter req
                     next) as Hrun.
  { intros r Hr.
    destruct (is_websocket_request info) eqn:Hw;
      [|destruct (is_gateway_host info) eqn:Hg; [|reflexivity]].
    - rewrite run_middleware_proceeds with (info := info0) by assumption.
      rewrite run_middleware_cases, H1, dispatch_cases, H2, Hi, Hw, Hr.
      cbn [negb].
      destruct r; reflexivity.
    - rewrite run_middleware_proceeds with (info := info0) by assumption.
      rewrite run_middleware_cases, H1, dispatch_cases, H2, Hi, Hw, Hg, Hr.
      cbn [negb].
      destruct r; reflexivity. }
  split; [|split; [|split]].
  - rewrite Hv.
    destruct (str_eqb (url_protocol url) (js "wss:")) eqn:E1.
    { apply str_eqb_eq in E1.
      split; [intros _; left; now symmetry | reflexivity]. }
    destruct (str_eqb (url_protocol url) (js "https:")) eqn:E2.
    { apply str_eqb_eq in E2.
      split; [intros _; right; left; now symmetry | reflexivity]. }
    apply str_eqb_neq in E1, E2.
    split; [discriminate|]. intros [H | [H | []]]; congruence.
  - intros Hin.
    destruct (http_request via options) as [[]|e] eqn:Hq.
    + apply http_request_protocol in Hq. rewrite Hp in Hq. simpl in Hin.
      destruct Hin as [Hin | [Hin | []]]; rewrite <- Hin in Hq;
        destruct via, Hq; discriminate.
    + unfold http_request in Hq.
      destruct (_ && _) in Hq; [discriminate|]. congruence.
  - intros Hq.
    assert (proxy_request_made req info = Ok (via, options)) as Hr
      by (unfold proxy_request_made; rewrite Hc; cbn [rbind fst snd];
          now rewrite Hq).
    pose proof (Hrun _ Hr) as Hm.
    split.
    + intros Hw. now rewrite Hw in Hm.
    + intros Hw Hg. now rewrite Hw, Hg in Hm.
  - intros e Hq.
    assert (proxy_request_made req info = Throw e) as Hr
      by (unfold proxy_request_made; rewrite Hc; cbn [rbind fst snd];
          now rewrite Hq).
    pose proof (Hrun _ Hr) as Hm.
    split.
    + intros Hw. now rewrite Hw in Hm.
    + intros Hw Hg. now rewrite Hw, Hg in Hm.
Qed.

Lemma substr_label (x p : jsstring) :
  substr (x ++ js "." ++ p) 0
    (JsString.length (x ++ js "." ++ p) - JsString.length p - 1)
  = x.
Proof.
  unfold substr, JsString.length. rewrite !length_app.
  change (List.length (js ".")) with 1%nat.
  replace (Z.to_nat
             (Z.of_nat (List.length x + (1 + List.length p))
              - Z.of_nat (List.length p) - 1))
    with (List.length x + 0)%nat by lia.
  change (Z.to_nat 0) with 0%nat. cbn [skipn].
  rewrite firstn_app_2. cbn [firstn]. apply app_nil_r.
Qed.

Lemma endsWith_label (x p : jsstring) :
  endsWith (x ++ js "." ++ p) p = true.
Proof. rewrite app_assoc. apply endsWith_app. Qed.

(** X15: with a configured gateway host, a request whose [host] is a label
    [x], a dot and the gateway's postfix is taken as addressed to a gateway
    host, and its target is [decode_hostname x]: for the label the redirect
    writes for a target [id] (units up to 999, no position that reads as an
    escape), the target is [id] again. *)
Theorem X15_host_mode_target (gateway : Gateway)
    (parser : GatewayBackendParser) (req : Request)
    (gh x : jsstring) (url : url_value) :
  gateway_host gateway = Some gh ->
  req_get_host req
  = Ok (x ++ js "." ++ gateway_subdomain gateway ++ js "." ++ gh) ->
  parse_url_from_id URL_new parser gateway req (decode_hostname x) = Ok url ->
  exists info,
    _parse_request_core_info URL_new parser gateway new_GatewayRequestInfo req
    = Ok info
    /\ is_gateway_host info = true
    /\ target_id info = Some (decode_hostname x)
    /\ backend_url info = url
    /\ (forall id,
           x = encode_hostname id ->
           forallb (fun c => (c <=? 999)%N) id = true ->
           escape_free id = true ->
           target_id info = Some id).
Proof.
  intros Hg Hh Hu. unfold _parse_request_core_info, get_gateway_host.
  rewrite Hg. cbn [rbind]. rewrite Hh. cbn [rbind].
  rewrite endsWith_label, substr_label, Hu. cbn [rbind].
  eexists. split; [reflexivity|]. cbn.
  repeat split. intros id -> Hle Hfree.
  now rewrite decode_encode_escape_free.
Qed.

(** Without a configured gateway host, the host the gateway takes for its
    own makes the request's host end with the postfix exactly when the
    subdomain, between dots, occurs in the request's host. *)
Lemma auto_detect_gateway_host (gateway : Gateway) (req : Request)
    (host : jsstring) :
  gateway_host gateway = None ->
  req_get_host req = Ok host ->
  exists gh,
    get_gateway_host gateway req = Ok gh
    /\ (endsWith host (gateway_subdomain gateway ++ js "." ++ gh) = true
        <-> occurs_in (js "." ++ gateway_subdomain gateway ++ js ".") host).
Proof.
  intros Hg Hh. unfold get_gateway_host. rewrite Hg, Hh. cbn [rbind].
  set (p := js "." ++ gateway_subdomain gateway ++ js ".").
  unfold lastIndexOf.
  destruct (lastIndexOf_from_spec p host 0 (-1))
    as [[Hr Hno] | (k & Hk & Hr & Hs)]; rewrite Hr.
  - change (-1 =? -1)%Z with true. cbv iota. eexists. split; [reflexivity|].
    split.
    + intros He. rewrite endsWith_longer in He; [discriminate|].
      rewrite !length_app. simpl. lia.
    + intros Ho. apply occurs_in_startsWith in Ho.
      destruct Ho as (k & Hk & Hs). rewrite Hno in Hs by assumption.
      discriminate.
  - replace (0 + Z.of_nat k =? -1)%Z with false
      by (symmetry; apply Z.eqb_neq; lia).
    eexists. split; [reflexivity|].
    split; [intros _; apply occurs_in_startsWith; eauto|]. intros _.
    unfold substr_from, JsString.length.
    replace (Z.to_nat (0 + Z.of_nat k + Z.of_nat (List.length p)))
      with (List.length p + k)%nat by lia.
    rewrite <- skipn_skipn.
    pose proof (startsWith_split _ _ Hs) as Hsplit.
    rewrite <- (firstn_skipn k host) at 1. rewrite Hsplit at 1.
    unfold p. rewrite <- !app_assoc.
    change (js "." ++ gateway_subdomain gateway ++ js "."
            ++ skipn (List.length (js "." ++ gateway_subdomain gateway ++ js "."))
                 (skipn k host))
      with (js "." ++ (gateway_subdomain gateway ++ js "."
            ++ skipn (List.length (js "." ++ gateway_subdomain gateway ++ js "."))
                 (skipn k host))).
    rewrite app_assoc. apply endsWith_app.
Qed.

(** X16: a gateway without a configured host takes a request as addressed
    to a gateway host exactly when the subdomain, between dots, occurs
    somewhere in the request's [host]. *)
Theorem X16_auto_detect (gateway : Gateway) (parser : GatewayBackendParser)
    (req : Request) (host : jsstring) (info : GatewayRequestInfo) :
  gateway_host gateway = None ->
  req_get_host req = Ok host ->
  _parse_request_core_info URL_new parser gateway new_GatewayRequestInfo req
  = Ok info ->
  (is_gateway_host info = true
   <-> occurs_in (js "." ++ gateway_subdomain gateway ++ js ".") host).
Proof.
  intros Hg Hh H1.
  destruct (auto_detect_gateway_host gateway req Hg Hh) as (gh & Hgh & Hiff).
  destruct (core_info_inv _ _ _ _ _ H1) as (gh' & h' & Hgh' & Hh' & _ & E & _).
  rewrite Hgh in Hgh'. rewrite Hh in Hh'.
  inversion Hgh'. inversion Hh'. subst gh' h'.
  rewrite E. exact Hiff.
Qed.

Lemma redirect_host_is_gateway_host (gateway : Gateway)
    (parser : GatewayBackendParser) (req req' : Request) (gh x : jsstring)
    (info : GatewayRequestInfo) :
  get_gateway_host gateway req = Ok gh ->
  req_get_host req'
  = Ok (x ++ js "." ++ gateway_subdomain gateway ++ js "." ++ gh) ->
  _parse_request_core_info URL_new parser gateway new_GatewayRequestInfo req'
  = Ok info ->
  is_gateway_host info = true.
Proof.
  intros Hgh Hh' H1.
  destruct (core_info_inv _ _ _ _ _ H1) as (g' & h' & Hg' & Hh & _ & E & _).
  rewrite Hh' in Hh. inversion Hh. subst h'. rewrite E.
  destruct (gateway_host gateway) as [g|] eqn:Hg.
  - unfold get_gateway_host in Hgh, Hg'. rewrite Hg in Hgh, Hg'.
    injection Hgh as <-. injection Hg' as <-. apply endsWith_label.
  - destruct (auto_detect_gateway_host gateway req' Hg Hh')
      as (g'' & Hg'' & Hiff).
    rewrite Hg'' in Hg'. injection Hg' as Hgg. rewrite <- Hgg.
    apply (proj2 Hiff). exists x, gh. now rewrite <- !app_assoc.
Qed.

(** X17: following a redirect never leads to another one: the host the
    redirect names (a label, the subdomain and the gateway host of the
    redirected request) is taken as a gateway host, whether the gateway
    host is configured or read from the request, so the request made to it
    is never answered by a redirect. *)
Theorem X17_no_redirect_loop (gateway : Gateway)
    (parser : GatewayBackendParser)
    (request_filter : option GatewayRequestFilter)
    (req req' : Request) (next : list jsval -> jsval) (gh x : jsstring) :
  get_gateway_host gateway req = Ok gh ->
  req_get_host req'
  = Ok (x ++ js "." ++ gateway_subdomain gateway ++ js "." ++ gh) ->
  (forall info,
      _parse_request_core_info URL_new parser gateway new_GatewayRequestInfo
        req' = Ok info ->
      is_gateway_host info = true)
  /\ existsb is_redirect_action
       (fst (run_middleware URL_new gateway parser request_filter req' next))
     = false.
Proof.
  intros Hgh Hh'. split.
  - intros info H1. eapply redirect_host_is_gateway_host; eassumption.
  - destruct (_parse_request_core_info URL_new parser gateway
                new_GatewayRequestInfo req') as [info|e] eqn:H1.
    + apply no_redirect_for with (info := info); [assumption|]. left.
      eapply redirect_host_is_gateway_host; eassumption.
    + rewrite run_middleware_cases, H1. reflexivity.
Qed.

(** X18: without a [parse_url_from_route] callback the route is read from
    the request: what follows the mount path in [originalUrl], after the
    request's protocol and [://], is given to [new URL].  The result is a
    [URL] object or an exception, never [null]: a request that is not
    addressed to a gateway host and gets through the second phase is always
    intercepted. *)
Theorem X18_default_route_parser (gateway : Gateway)
    (parser : GatewayBackendParser) (req : Request) (base rest : jsstring) :
  invoke_parse_url_from_route parser = None ->
  req_originalUrl req = base ++ rest ->
  req_baseUrl req = Some base \/ (req_baseUrl req = None /\ base = []) ->
  parse_url_from_route URL_new parser gateway req
  = rbind (URL_new (req_protocol req ++ js "://" ++ rest))
          (fun url => Ok (UObject url))
  /\ (forall info info',
         is_gateway_host info = false ->
         _parse_request_intercept_info URL_new parser gateway info req
         = Ok info' ->
         is_gateway_intercept info' = true).
Proof.
  intros Hp Ho Hb.
  assert (parse_url_from_route URL_new parser gateway req
          = rbind (URL_new (req_protocol req ++ js "://" ++ rest))
                  (fun url => Ok (UObject url))) as Hr.
  { unfold parse_url_from_route. rewrite Hp. cbv zeta. rewrite Ho.
    unfold substr_from, JsString.length.
    destruct Hb as [-> | [-> ->]]; [|reflexivity].
    destruct base as [|c b]; [reflexivity|].
    now rewrite Nat2Z.id, skipn_app, skipn_all, Nat.sub_diag. }
  split; [exact Hr|].
  intros info info' Hh H2. unfold _parse_request_intercept_info in H2.
  rewrite Hh, Hr in H2. cbn [negb] in H2.
  destruct (URL_new (req_protocol req ++ js "://" ++ rest)) as [u|e];
    [|discriminate].
  cbn [rbind] in H2.
  apply rbind_Ok in H2. destruct H2 as (m & _ & H2).
  apply rbind_Ok in H2. destruct H2 as (p & _ & H2).
  inversion H2. reflexivity.
Qed.

End MiddlewareMore.

(* ================================================================== *)
(** * The further properties on the example requests *)
(* ================================================================== *)

Lemma X8_intercept_invariant_witness :
  is_gateway_host Examples.info_intercept = is_gateway_host Examples.info_core
  /\ is_websocket_request Examples.info_intercept
     = is_websocket_request Examples.info_core
  /\ gateway_domain_postfix Examples.info_intercept
     = gateway_domain_postfix Examples.info_core
  /\ (is_gateway_intercept Examples.info_intercept = true ->
      exists url method id,
        backend_url Examples.info_intercept = UObject url
        /\ target_method Examples.info_intercept = Some method
        /\ target_id Examples.info_intercept = Some id)
  /\ (is_gateway_intercept Examples.info_intercept = false ->
      backend_url Examples.info_intercept = UNull
      /\ target_id Examples.info_intercept = target_id Examples.info_core
      /\ target_method Examples.info_intercept
         = target_method Examples.info_core).
Proof.
  apply (@X8_intercept_invariant Examples.no_URL_new Examples.parser
           Examples.gateway Examples.info_core Examples.info_intercept
           Examples.request).
  reflexivity.
Defined.

Lemma X10_no_host_header_witness :
  run_middleware Examples.no_URL_new Examples.gateway Examples.parser
    (Some Examples.filter_allows) MoreExamples.request_no_host Examples.next
  = ([AEmitError TypeError; AEmitLog ERROR (MsgProcessingError TypeError);
      ASendStatus 500], Ok JUndefined).
Proof.
  apply (@X10_no_host_header Examples.no_URL_new Examples.gateway
           Examples.parser (Some Examples.filter_allows)
           MoreExamples.request_no_host Examples.next).
  reflexivity.
Defined.


Lemma X13_no_redirect_witness :
  existsb is_redirect_action
    (fst (run_middleware Examples.no_URL_new Examples.gateway Examples.parser
            None Examples.request_host_mode Examples.next))
  = false.
Proof.
  apply (@X13_no_redirect Examples.no_URL_new Examples.gateway Examples.parser
           None Examples.request_host_mode Examples.next
           Examples.info_core_host_mode);
    [reflexivity | left; reflexivity].
Defined.

Lemma X14_upstream_dispatch_witness :
  exists url via options,
    backend_url MoreExamples.info_intercept_host_mode = UObject url
    /\ create_proxy_request Examples.request_host_mode
         MoreExamples.info_intercept_host_mode None false = Ok (via, options)
    /\ opt_protocol options = url_protocol url
    /\ (via = Tls <-> In (url_protocol url) [js "wss:"; js "https:"])
    /\ (In (url_protocol url) [js "ws:"; js "wss:"] ->
        http_request via options = Throw TypeError)
    /\ (http_request via options = Ok tt ->
        (is_websocket_request MoreExamples.info_intercept_host_mode = true ->
         run_middleware Examples.no_URL_new Examples.gateway Examples.parser
           None Examples.request_host_mode Examples.next
         = ([AEmitLog INFO
               (MsgStartingWebsocket
                  (req_originalUrl Examples.request_host_mode)
                  (backend_url MoreExamples.info_intercept_host_mode));
             AClientSocketSetup; AUpstreamRequest via options;
             APipeRequestBody], Ok JUndefined))
        /\ (is_websocket_request MoreExamples.info_intercept_host_mode
            = false ->
            is_gateway_host MoreExamples.info_intercept_host_mode = true ->
            run_middleware Examples.no_URL_new Examples.gateway
              Examples.parser None Examples.request_host_mode Examples.next
            = ([AUpstreamRequest via options; APipeRequestBody],
               Ok JUndefined)))
    /\ (forall e,
          http_request via options = Throw e ->
          (is_websocket_request MoreExamples.info_intercept_host_mode
           = true ->
           run_middleware Examples.no_URL_new Examples.gateway
             Examples.parser None Examples.request_host_mode Examples.next
           = ([AEmitLog INFO
                 (MsgStartingWebsocket
                    (req_originalUrl Examples.request_host_mode)
                    (backend_url MoreExamples.info_intercept_host_mode));
               AClientSocketSetup; AEmitError e;
               AEmitLog ERROR MsgWebsocketSetupError], Ok JUndefined))
          /\ (is_websocket_request MoreExamples.info_intercept_host_mode
              = false ->
              is_gateway_host MoreExamples.info_intercept_host_mode = true ->
              run_middleware Examples.no_URL_new Examples.gateway
                Examples.parser None Examples.request_host_mode Examples.next
              = ([AEmitError e; AEmitLog ERROR (MsgProcessingError e);
                  ASendStatus 500], Ok JUndefined))).
Proof.
  apply (@X14_upstream_dispatch Examples.no_URL_new Examples.gateway
           Examples.parser None Examples.request_host_mode Examples.next
           Examples.info_core_host_mode
           MoreExamples.info_intercept_host_mode);
    reflexivity.
Defined.

(** The request of the host mode example is one Node takes; with the
    protocol [wss:] forced it is refused. *)
Example http_request_example :
  http_request PlainHttp
    (mkOptions (Some (js "GET")) (js "http:") (js "127.0.0.1") (js "3030")
       (js "/x") (req_headers Examples.request_host_mode)) = Ok tt
  /\ http_request Tls
       (mkOptions (Some (js "GET")) (js "wss:") (js "127.0.0.1") (js "3030")
          (js "/x") (req_headers Examples.request_host_mode))
     = Throw TypeError.
Proof. split; reflexivity. Qed.

Lemma X15_host_mode_target_witness :
  exists info,
    _parse_request_core_info Examples.no_URL_new Examples.parser
      Examples.gateway new_GatewayRequestInfo Examples.request_host_mode
    = Ok info
    /\ is_gateway_host info = true
    /\ target_id info = Some (decode_hostname (js "127.0.0.1.e058.3030"))
    /\ backend_url info = UObject Examples.backend
    /\ (forall id,
           js "127.0.0.1.e058.3030" = encode_hostname id ->
           forallb (fun c => (c <=? 999)%N) id = true ->
           escape_free id = true ->
           target_id info = Some id).
Proof.
  apply (@X15_host_mode_target Examples.no_URL_new Examples.gateway
           Examples.parser Examples.request_host_mode (js "example.com")
           (js "127.0.0.1.e058.3030") (UObject Examples.backend));
    reflexivity.
Defined.

Lemma X16_auto_detect_witness :
  is_gateway_host Examples.info_core_host_mode = true.
Proof.
  apply (proj2
           (@X16_auto_detect Examples.no_URL_new MoreExamples.gateway_auto
              Examples.parser Examples.request_host_mode
              (js "127.0.0.1.e058.3030.gateway-proxy.example.com")
              Examples.info_core_host_mode eq_refl eq_refl eq_refl)).
  exists (js "127.0.0.1.e058.3030"), (js "example.com"). reflexivity.
Defined.

Lemma X17_no_redirect_loop_witness :
  existsb is_redirect_action
    (fst (run_middleware Examples.no_URL_new MoreExamples.gateway_auto
            Examples.parser None Examples.request_host_mode Examples.next))
  = false.
Proof.
  apply (@X17_no_redirect_loop Examples.no_URL_new MoreExamples.gateway_auto
           Examples.parser None Examples.request Examples.request_host_mode
           Examples.next (js "example.com") (js "127.0.0.1.e058.3030"));
    reflexivity.
Defined.

Lemma X18_default_route_parser_witness :
  parse_url_from_route MoreExamples.URL_new_one MoreExamples.parser_default
    Examples.gateway MoreExamples.request_mounted
  = Ok (UObject Examples.backend).
Proof.
  apply (proj1
           (@X18_default_route_parser MoreExamples.URL_new_one
              Examples.gateway MoreExamples.parser_default
              MoreExamples.request_mounted (js "/gateway")
              (js "/127.0.0.1:3030/x") eq_refl eq_refl
              (or_introl eq_refl))).
Defined.
